(** * TodoFormModal: the create/edit form of the todo list

    A shallow embedding of the modal form component (its form state, the
    seeding effect, [handleChange], [handleSubmit] and the close paths),
    together with the parts of the JavaScript runtime the component calls:
    [String.prototype.trim], [new Date(string)], [Date.prototype.toISOString]
    and [String.prototype.split]. *)

From Stdlib Require Import ZArith NArith List Bool Lia String Ascii.
Import ListNotations.

Local Open Scope Z_scope.

(** ** JavaScript strings

    A JavaScript string is a sequence of UTF-16 code units.  Literals of the
    source are ASCII and are written with [js]. *)

Module JSString.

Abbreviation code_unit := N.
Definition t := list code_unit.

Definition js (s : string) : t :=
  List.map N_of_ascii (list_ascii_of_string s).

Fixpoint eqb (a b : t) : bool :=
  match a, b with
  | [], [] => true
  | x :: a', y :: b' => N.eqb x y && eqb a' b'
  | _, _ => false
  end.

(** WhiteSpace and LineTerminator code points of ECMA-262 (all of them lie
    in the basic plane, so each is one code unit): what [trim] strips. *)
Definition is_white (c : code_unit) : bool :=
  let c := Z.of_N c in
  (c =? 9) || (c =? 10) || (c =? 11) || (c =? 12) || (c =? 13) || (c =? 32)
  || (c =? 160) || (c =? 5760) || ((8192 <=? c) && (c <=? 8202))
  || (c =? 8232) || (c =? 8233) || (c =? 8239) || (c =? 8287)
  || (c =? 12288) || (c =? 65279).

Fixpoint trimStart (s : t) : t :=
  match s with
  | c :: s' => if is_white c then trimStart s' else s
  | [] => []
  end.

Definition trimEnd (s : t) : t := rev (trimStart (rev s)).

(** [s.trim()] *)
Definition trim (s : t) : t := trimEnd (trimStart s).

(** Truthiness of a string: only the empty string is falsy. *)
Definition truthy (s : t) : bool :=
  match s with [] => false | _ :: _ => true end.

(** [s.split(sep)[0]] for a one-unit separator: the text before the first
    occurrence of the separator, the whole string when there is none. *)
Fixpoint split_head (sep : code_unit) (s : t) : t :=
  match s with
  | [] => []
  | c :: s' => if N.eqb c sep then [] else c :: split_head sep s'
  end.

End JSString.

Import JSString.
Abbreviation code_unit := N.
Abbreviation jsstring := JSString.t.

(** ** Decimal fields *)

Definition digit_char (d : Z) : code_unit := Z.to_N (48 + d).

Definition digit_val (c : code_unit) : option Z :=
  let z := Z.of_N c in
  if (48 <=? z) && (z <=? 57) then Some (z - 48) else None.

(** [pad n z]: the last [n] decimal digits of [z], most significant first
    (zero padded). *)
Fixpoint pad (n : nat) (z : Z) : jsstring :=
  match n with
  | O => []
  | S n' => digit_char ((z / 10 ^ Z.of_nat n') mod 10) :: pad n' z
  end.

(** Reads exactly [n] decimal digits. *)
Fixpoint read_digits (n : nat) (acc : Z) (s : jsstring) : option (Z * jsstring) :=
  match n with
  | O => Some (acc, s)
  | S n' =>
      match s with
      | c :: s' =>
          match digit_val c with
          | Some d => read_digits n' (acc * 10 + d) s'
          | None => None
          end
      | [] => None
      end
  end.

(** ** Calendar arithmetic of the Date object (ECMA-262, 21.4.1) *)

Module DateMath.

Definition msPerDay : Z := 86400000.
Definition msPerHour : Z := 3600000.
Definition msPerMinute : Z := 60000.
Definition msPerSecond : Z := 1000.

Definition is_leap (y : Z) : bool :=
  ((y mod 4 =? 0) && negb (y mod 100 =? 0)) || (y mod 400 =? 0).

Definition days_in_month (y m : Z) : Z :=
  if m =? 2 then (if is_leap y then 29 else 28)
  else if (m =? 4) || (m =? 6) || (m =? 9) || (m =? 11) then 30
  else 31.

(** [MakeDay]: the day number (days since 1970-01-01) of the civil date
    [y]-[m]-[d], with [m] counted from 1. *)
Definition days_from_civil (y m d : Z) : Z :=
  let y' := if m <=? 2 then y - 1 else y in
  let era := y' / 400 in
  let yoe := y' - era * 400 in
  let mp := if 2 <? m then m - 3 else m + 9 in
  let doy := (153 * mp + 2) / 5 + d - 1 in
  let doe := yoe * 365 + yoe / 4 - yoe / 100 + doy in
  era * 146097 + doe - 719468.

(** [YearFromTime], [MonthFromTime] (counted from 1) and [DateFromTime] of a
    day number. *)
Definition civil_from_days (z : Z) : Z * Z * Z :=
  let z := z + 719468 in
  let era := z / 146097 in
  let doe := z - era * 146097 in
  let yoe := (doe - doe / 1460 + doe / 36524 - doe / 146096) / 365 in
  let y := yoe + era * 400 in
  let doy := doe - (365 * yoe + yoe / 4 - yoe / 100) in
  let mp := (5 * doy + 2) / 153 in
  let d := doy - (153 * mp + 2) / 5 + 1 in
  let m := if mp <? 10 then mp + 3 else mp - 9 in
  ((if m <=? 2 then y + 1 else y), m, d).

Definition MakeTime (h mi s ms : Z) : Z :=
  h * msPerHour + mi * msPerMinute + s * msPerSecond + ms.

Definition MakeDate (day time : Z) : Z := day * msPerDay + time.

(** [TimeClip]: time values beyond 8.64e15 ms are not representable. *)
Definition TimeClip (tv : Z) : option Z :=
  if Z.abs tv <=? 8640000000000000 then Some tv else None.

End DateMath.

Import DateMath.

(** ** Completions: a call returns normally or throws *)

Inductive Exception := RangeError.

Inductive Completion (A : Type) : Type :=
  | Normal (a : A)
  | Throw (e : Exception).
Arguments Normal {A} a.
Arguments Throw {A} e.

Definition bind {A B} (c : Completion A) (k : A -> Completion B) : Completion B :=
  match c with
  | Normal a => k a
  | Throw e => Throw e
  end.

Notation "x <- c ;; k" := (bind c (fun x => k))
  (at level 61, c at next level, right associativity).

Definition obind {A B} (c : option A) (k : A -> option B) : option B :=
  match c with
  | Some a => k a
  | None => None
  end.

Notation "x <-? c ;; k" := (obind c (fun x => k))
  (at level 61, c at next level, right associativity).
Notation "' pat <-? c ;; k" := (obind c (fun x => match x with pat => k end))
  (at level 61, pat pattern, c at next level, right associativity).

(** ** The Date object: [new Date(string)] and [toISOString] *)

Definition chr (a : ascii) : code_unit := N_of_ascii a.

(** What ECMA-262 leaves to the host: how a string outside the Date Time
    String Format is parsed ([None] is NaN), and the offset of local time
    from UTC, in milliseconds, at a given local time. *)
Record Host := {
  host_parse : jsstring -> option Z;
  LocalTZA : Z -> Z
}.

Module DateString.

Inductive Zone :=
  | ZoneAbsent
  | ZoneUTC
  | ZoneOffset (sign h mi : Z).

Record Fields := {
  year : Z; month : Z; day : Z;
  time : option (Z * Z * Z * Z);
  zone : Zone
}.

Definition expect (c : ascii) (s : jsstring) : option jsstring :=
  match s with
  | x :: s' => if N.eqb x (chr c) then Some s' else None
  | [] => None
  end.

Definition starts_with (c : ascii) (s : jsstring) : bool :=
  match s with
  | x :: _ => N.eqb x (chr c)
  | [] => false
  end.

(** [YYYY], or an expanded year [+YYYYYY] / [-YYYYYY] (but not [-000000]). *)
Definition read_year (s : jsstring) : option (Z * jsstring) :=
  if starts_with "+" s then read_digits 6 0 (tl s)
  else if starts_with "-" s then
    '(y, r) <-? read_digits 6 0 (tl s) ;;
    if y =? 0 then None else Some (- y, r)
  else read_digits 4 0 s.

(** [-MM] and [-DD] are optional and default to 01. *)
Definition read_month_day (s : jsstring) : option (Z * Z * jsstring) :=
  if starts_with "-" s then
    '(m, r) <-? read_digits 2 0 (tl s) ;;
    if starts_with "-" r then
      '(d, r') <-? read_digits 2 0 (tl r) ;;
      Some (m, d, r')
    else Some (m, 1, r)
  else Some (1, 1, s).

(** [HH:mm], [HH:mm:ss] or [HH:mm:ss.sss] *)
Definition read_time (s : jsstring) : option (Z * Z * Z * Z * jsstring) :=
  '(h, r) <-? read_digits 2 0 s ;;
  r <-? expect ":" r ;;
  '(mi, r) <-? read_digits 2 0 r ;;
  if starts_with ":" r then
    '(sec, r) <-? read_digits 2 0 (tl r) ;;
    if starts_with "." r then
      '(ms, r) <-? read_digits 3 0 (tl r) ;;
      Some (h, mi, sec, ms, r)
    else Some (h, mi, sec, 0, r)
  else Some (h, mi, 0, 0, r).

(** The UTC offset, which ends the string: nothing, [Z], or [+HH:mm] /
    [-HH:mm]. *)
Definition read_zone (s : jsstring) : option Zone :=
  match s with
  | [] => Some ZoneAbsent
  | c :: r =>
      if N.eqb c (chr "Z") then
        match r with [] => Some ZoneUTC | _ :: _ => None end
      else if N.eqb c (chr "+") || N.eqb c (chr "-") then
        '(h, r) <-? read_digits 2 0 r ;;
        r <-? expect ":" r ;;
        '(mi, r) <-? read_digits 2 0 r ;;
        match r with
        | [] => Some (ZoneOffset (if N.eqb c (chr "+") then 1 else -1) h mi)
        | _ :: _ => None
        end
      else None
  end.

Definition read_fields (s : jsstring) : option Fields :=
  '(y, r) <-? read_year s ;;
  '(m, d, r) <-? read_month_day r ;;
  match r with
  | [] => Some {| year := y; month := m; day := d; time := None; zone := ZoneAbsent |}
  | c :: r =>
      if N.eqb c (chr "T") then
        '(h, mi, sec, ms, r) <-? read_time r ;;
        z <-? read_zone r ;;
        Some {| year := y; month := m; day := d;
                time := Some (h, mi, sec, ms); zone := z |}
      else None
  end.

(** The bounds of the format elements.  [24:00:00] is the end of the day. *)
Definition in_bounds (f : Fields) : bool :=
  (1 <=? month f) && (month f <=? 12)
  && (1 <=? day f) && (day f <=? days_in_month (year f) (month f))
  && match time f with
     | None => true
     | Some (h, mi, sec, ms) =>
         (mi <=? 59) && (sec <=? 59)
         && ((h <=? 23) || ((h =? 24) && (mi =? 0) && (sec =? 0) && (ms =? 0)))
     end
  && match zone f with
     | ZoneOffset _ h mi => (h <=? 23) && (mi <=? 59)
     | _ => true
     end.

Section WithHost.
Variable host : Host.

(** The time value of the fields.  Without an offset a date-only form is
    UTC and a date-time form is local time. *)
Definition time_value (f : Fields) : Z :=
  let dayno := days_from_civil (year f) (month f) (day f) in
  match time f with
  | None => MakeDate dayno 0
  | Some (h, mi, sec, ms) =>
      let t := MakeDate dayno (MakeTime h mi sec ms) in
      match zone f with
      | ZoneAbsent => t - LocalTZA host t
      | ZoneUTC => t
      | ZoneOffset sign h' mi' => t - sign * (h' * msPerHour + mi' * msPerMinute)
      end
  end.

(** [Date.parse]: the Date Time String Format first, the host's own formats
    for every other string. *)
Definition parse (s : jsstring) : option Z :=
  match read_fields s with
  | Some f => if in_bounds f then Some (time_value f) else host_parse host s
  | None => host_parse host s
  end.

End WithHost.
End DateString.

Module Date.

(** The time value of a Date object; [None] is NaN, an Invalid Date. *)
Definition t := option Z.

(** [new Date(s)] *)
Definition new (host : Host) (s : jsstring) : t :=
  tv <-? DateString.parse host s ;; TimeClip tv.

Definition year_string (y : Z) : jsstring :=
  if (0 <=? y) && (y <=? 9999) then pad 4 y
  else (if 0 <=? y then chr "+" else chr "-") :: pad 6 (Z.abs y).

(** [d.toISOString()]: [YYYY-MM-DDTHH:mm:ss.sssZ] in UTC; a RangeError for
    an Invalid Date. *)
Definition toISOString (d : t) : Completion jsstring :=
  match d with
  | None => Throw RangeError
  | Some tv =>
      let dayno := tv / msPerDay in
      let tod := tv mod msPerDay in
      let '(y, m, dd) := civil_from_days dayno in
      Normal (year_string y ++ chr "-" :: pad 2 m ++ chr "-" :: pad 2 dd
              ++ chr "T" :: pad 2 (tod / msPerHour)
              ++ chr ":" :: pad 2 ((tod / msPerMinute) mod 60)
              ++ chr ":" :: pad 2 ((tod / msPerSecond) mod 60)
              ++ chr "." :: pad 3 (tod mod 1000) ++ [chr "Z"])
  end.

End Date.

(** ** The data model of the form *)

Inductive Priority := low | medium | high.
Inductive Status := pending | in_progress | completed.

Definition Status_eqb (a b : Status) : bool :=
  match a, b with
  | pending, pending | in_progress, in_progress | completed, completed => true
  | _, _ => false
  end.

Module Todo.
Record t := {
  id : jsstring;
  title : jsstring;
  description : jsstring;
  completed : bool;
  dueDate : jsstring;
  priority : Priority;
  status : Status;
  createdAt : jsstring;
  updatedAt : jsstring
}.
End Todo.

Module TodoFormState.
Record t := {
  title : jsstring;
  description : jsstring;
  dueDate : jsstring;
  priority : Priority;
  status : Status
}.
End TodoFormState.

(** [Partial<Todo>]: every field of [Todo] may be absent. *)
Module PartialTodo.
Record t := {
  id : option jsstring;
  title : option jsstring;
  description : option jsstring;
  completed : option bool;
  dueDate : option jsstring;
  priority : option Priority;
  status : option Status;
  createdAt : option jsstring;
  updatedAt : option jsstring
}.
End PartialTodo.

(** The [name] attributes of the form controls [handleChange] is attached
    to, and the type of the value each control reports: free text for the
    inputs, one of the options for the two selects. *)
Module FieldName.
Inductive t := title | description | dueDate | priority | status.

Definition value (name : t) : Type :=
  match name with
  | title | description | dueDate => jsstring
  | priority => Priority
  | status => Status
  end.

Definition eqb (a b : t) : bool :=
  match a, b with
  | title, title | description, description | dueDate, dueDate
  | priority, priority | status, status => true
  | _, _ => false
  end.

(** [formData[name]] *)
Definition get (name : t) (formData : TodoFormState.t) : value name :=
  match name with
  | title => TodoFormState.title formData
  | description => TodoFormState.description formData
  | dueDate => TodoFormState.dueDate formData
  | priority => TodoFormState.priority formData
  | status => TodoFormState.status formData
  end.
End FieldName.

Definition defaultFormState : TodoFormState.t := {|
  TodoFormState.title := js "";
  TodoFormState.description := js "";
  TodoFormState.dueDate := js "";
  TodoFormState.priority := medium;
  TodoFormState.status := pending
|}.

(** ** The component *)

(** What the component does to the outside: calls of the callbacks it was
    given, and calls into the browser. *)
Inductive Effect :=
  | onSave (todo : PartialTodo.t)
  | onClose
  | alert (message : jsstring)
  | focusTitle
  | setTimeout_focusTitle
  | preventDefault
  | stopPropagation.

Record TodoFormModalProps := {
  isOpen : bool;
  editingTodo : option Todo.t
}.

Module TodoFormModal.
Section WithHost.
Variable host : Host.

(** [editingTodo.dueDate ? new Date(editingTodo.dueDate).toISOString().split('T')[0] : ''] *)
Definition formatDueDate (dueDate : jsstring) : Completion jsstring :=
  if truthy dueDate then
    iso <- Date.toISOString (Date.new host dueDate) ;;
    Normal (split_head (chr "T") iso)
  else Normal (js "").

(** The object the seeding effect passes to [setFormData] when editing. *)
Definition seed (editingTodo : Todo.t) : Completion TodoFormState.t :=
  d <- formatDueDate (Todo.dueDate editingTodo) ;;
  Normal {|
    TodoFormState.title := Todo.title editingTodo;
    TodoFormState.description := Todo.description editingTodo;
    TodoFormState.dueDate := d;
    TodoFormState.priority := Todo.priority editingTodo;
    TodoFormState.status := Todo.status editingTodo
  |}.

(** The body of the first effect: the new form state and the effects. *)
Definition seedingEffect (props : TodoFormModalProps) (formData : TodoFormState.t)
  : Completion (TodoFormState.t * list Effect) :=
  if isOpen props then
    formData' <-
      match editingTodo props with
      | Some todo => seed todo
      | None => Normal defaultFormState
      end ;;
    Normal (formData', [setTimeout_focusTitle])
  else Normal (formData, []).

End WithHost.

(** [handleKeyDown], the document's keydown listener while the form is open. *)
Definition handleKeyDown (key : jsstring) : list Effect :=
  if JSString.eqb key (js "Escape") then [onClose] else [].

(** [handleChange]: [{ ...prev, [name]: value }] *)
Definition handleChange (name : FieldName.t) : FieldName.value name -> TodoFormState.t -> TodoFormState.t :=
  match name with
  | FieldName.title => fun value prev => {|
      TodoFormState.title := value;
      TodoFormState.description := TodoFormState.description prev;
      TodoFormState.dueDate := TodoFormState.dueDate prev;
      TodoFormState.priority := TodoFormState.priority prev;
      TodoFormState.status := TodoFormState.status prev |}
  | FieldName.description => fun value prev => {|
      TodoFormState.title := TodoFormState.title prev;
      TodoFormState.description := value;
      TodoFormState.dueDate := TodoFormState.dueDate prev;
      TodoFormState.priority := TodoFormState.priority prev;
      TodoFormState.status := TodoFormState.status prev |}
  | FieldName.dueDate => fun value prev => {|
      TodoFormState.title := TodoFormState.title prev;
      TodoFormState.description := TodoFormState.description prev;
      TodoFormState.dueDate := value;
      TodoFormState.priority := TodoFormState.priority prev;
      TodoFormState.status := TodoFormState.status prev |}
  | FieldName.priority => fun value prev => {|
      TodoFormState.title := TodoFormState.title prev;
      TodoFormState.description := TodoFormState.description prev;
      TodoFormState.dueDate := TodoFormState.dueDate prev;
      TodoFormState.priority := value;
      TodoFormState.status := TodoFormState.status prev |}
  | FieldName.status => fun value prev => {|
      TodoFormState.title := TodoFormState.title prev;
      TodoFormState.description := TodoFormState.description prev;
      TodoFormState.dueDate := TodoFormState.dueDate prev;
      TodoFormState.priority := TodoFormState.priority prev;
      TodoFormState.status := value |}
  end.

(** [todoToSave]: the form fields, [completed], and [id] when editing. *)
Definition todoToSave (editingTodo : option Todo.t) (formData : TodoFormState.t) : PartialTodo.t := {|
  PartialTodo.title := Some (TodoFormState.title formData);
  PartialTodo.description := Some (TodoFormState.description formData);
  PartialTodo.dueDate := Some (TodoFormState.dueDate formData);
  PartialTodo.priority := Some (TodoFormState.priority formData);
  PartialTodo.status := Some (TodoFormState.status formData);
  PartialTodo.completed := Some (Status_eqb (TodoFormState.status formData) completed);
  PartialTodo.id :=
    match editingTodo with
    | Some todo => Some (Todo.id todo)
    | None => None
    end;
  PartialTodo.createdAt := None;
  PartialTodo.updatedAt := None
|}.

(** [handleSubmit]; it reads the form state and does not set it. *)
Definition handleSubmit (editingTodo : option Todo.t) (formData : TodoFormState.t) : list Effect :=
  preventDefault ::
  if negb (truthy (trim (TodoFormState.title formData))) then
    [alert (js "Todo title cannot be empty."); focusTitle]
  else
    [onSave (todoToSave editingTodo formData); onClose].

End TodoFormModal.

(** ** The controller: the component and the parent that owns its props *)

Record Controller := {
  props : TodoFormModalProps;
  formData : TodoFormState.t
}.

(** The state of a freshly mounted, closed form ([useState(defaultFormState)]). *)
Definition mounted : Controller := {|
  props := {| isOpen := false; editingTodo := None |};
  formData := defaultFormState
|}.

(** What the browser can deliver to the rendered form. *)
Inductive UIEvent :=
  | change (name : FieldName.t) (value : FieldName.value name)
  | submit
  | clickOverlay
  | clickContent
  | clickCloseButton
  | clickCancelButton
  | keydown (key : jsstring).

Inductive Event :=
  | open (editingTodo : option Todo.t)
  | ui (ev : UIEvent).

(** The four ways of dismissing the form. *)
Definition dismissal (ev : UIEvent) : bool :=
  match ev with
  | clickOverlay | clickCloseButton | clickCancelButton => true
  | keydown key => JSString.eqb key (js "Escape")
  | _ => false
  end.

(** What an event does: the controller after it and the effects in order,
    or the exception the seeding effect threw, or nothing because the event
    is not one of the state machine (opening a form that is open: whether
    the effect runs then depends on the identity of the entity object). *)
Inductive Outcome :=
  | Ran (c : Controller) (trace : list Effect)
  | Threw (e : Exception)
  | NotEnabled.

Definition is_onClose (e : Effect) : bool :=
  match e with onClose => true | _ => false end.

(** Modelled from the spec: the parent component, which is not part of the
    sources.  It owns [isOpen] and resets it when [onClose] is called
    ("used by the collaborator only to reset its own is-editor-open flag");
    what it does with a saved record does not reach the form. *)
Definition collaborator (trace : list Effect) (p : TodoFormModalProps) : TodoFormModalProps :=
  if existsb is_onClose trace
  then {| isOpen := false; editingTodo := editingTodo p |}
  else p.

Section Controller.
Variable host : Host.

(** The handlers of the rendered tree.  A click bubbles from its target to
    the overlay unless a handler on the way stops it; the content box stops
    every click that comes from inside it. *)
Definition handle (ev : UIEvent) (c : Controller) : TodoFormState.t * list Effect :=
  match ev with
  | change name value => (TodoFormModal.handleChange name value (formData c), [])
  | submit => (formData c, TodoFormModal.handleSubmit (editingTodo (props c)) (formData c))
  | clickOverlay => (formData c, [onClose])
  | clickContent => (formData c, [stopPropagation])
  | clickCloseButton | clickCancelButton => (formData c, [onClose; stopPropagation])
  | keydown key => (formData c, TodoFormModal.handleKeyDown key)
  end.

(** The component is rendered with new props: the seeding effect runs when
    its dependency [isOpen] has changed. *)
Definition rerender (props' : TodoFormModalProps) (c : Controller) (trace : list Effect) : Outcome :=
  if Bool.eqb (isOpen (props c)) (isOpen props') then
    Ran {| props := props'; formData := formData c |} trace
  else
    match TodoFormModal.seedingEffect host props' (formData c) with
    | Normal (formData', trace') =>
        Ran {| props := props'; formData := formData' |} (trace ++ trace')
    | Throw e => Threw e
    end.

(** One event.  [open] is the parent rendering a closed form with
    [isOpen = true].  Every other event comes from the rendered tree or from
    the keydown listener, which exist only while the form is open (a closed
    form renders nothing and has no listener attached); the parent reacts to
    the callbacks and renders the form again.  Rendering a form that is
    open with another entity is left out ([NotEnabled]): the effect also
    depends on [editingTodo] and would seed the form again, and could
    throw, when the entity is another object. *)
Definition step (ev : Event) (c : Controller) : Outcome :=
  match ev with
  | open todo =>
      if isOpen (props c) then NotEnabled
      else rerender {| isOpen := true; editingTodo := todo |} c []
  | ui ev =>
      if isOpen (props c) then
        let '(formData', trace) := handle ev c in
        rerender (collaborator trace (props c))
                 {| props := props c; formData := formData' |} trace
      else Ran c []
  end.

Fixpoint run (evs : list Event) (c : Controller) : Outcome :=
  match evs with
  | [] => Ran c []
  | ev :: evs' =>
      match step ev c with
      | Ran c' trace =>
          match run evs' c' with
          | Ran c'' trace' => Ran c'' (trace ++ trace')
          | o => o
          end
      | o => o
      end
  end.

End Controller.

(** The records passed to [onSave], in order. *)
Fixpoint saved (trace : list Effect) : list PartialTodo.t :=
  match trace with
  | [] => []
  | onSave todo :: trace' => todo :: saved trace'
  | _ :: trace' => saved trace'
  end.

Definition closes (trace : list Effect) : nat :=
  List.length (List.filter is_onClose trace).

(** A host in UTC that knows no format of its own. *)
Definition utc_host : Host := {| host_parse := fun _ => None; LocalTZA := fun _ => 0 |}.

(** A host five and a half hours east of Greenwich. *)
Definition east_host : Host :=
  {| host_parse := fun _ => None; LocalTZA := fun _ => 19800000 |}.

(** ** Scripts, sample inputs and the statements of the spec *)

(** A [setField] of the spec: a change event of one control. *)
Definition setField (e : {name : FieldName.t & FieldName.value name}) : Event :=
  ui (change (projT1 e) (projT2 e)).

(** ** Due dates in the Date Time String Format, in UTC *)

Module DueDate.

Inductive TimeOfDay :=
  | HM (h mi : Z)
  | HMS (h mi s : Z)
  | HMSms (h mi s ms : Z).

Inductive t :=
  | Empty
  | DateOnly (y m d : Z)
  | DateTimeUTC (y m d : Z) (tod : TimeOfDay).

Definition date_string (y m d : Z) : jsstring :=
  pad 4 y ++ chr "-" :: pad 2 m ++ chr "-" :: pad 2 d.

Definition time_string (tod : TimeOfDay) : jsstring :=
  match tod with
  | HM h mi => pad 2 h ++ chr ":" :: pad 2 mi
  | HMS h mi s => pad 2 h ++ chr ":" :: pad 2 mi ++ chr ":" :: pad 2 s
  | HMSms h mi s ms =>
      pad 2 h ++ chr ":" :: pad 2 mi ++ chr ":" :: pad 2 s ++ chr "." :: pad 3 ms
  end.

(** The string: [""], [YYYY-MM-DD], or [YYYY-MM-DDT<time>Z]. *)
Definition render (f : t) : jsstring :=
  match f with
  | Empty => []
  | DateOnly y m d => date_string y m d
  | DateTimeUTC y m d tod => date_string y m d ++ chr "T" :: time_string tod ++ [chr "Z"]
  end.

Definition valid_date (y m d : Z) : bool :=
  (0 <=? y) && (y <=? 9999) && (1 <=? m) && (m <=? 12)
  && (1 <=? d) && (d <=? days_in_month y m).

Definition between (lo x hi : Z) : bool := (lo <=? x) && (x <=? hi).

(** A time of day before 24:00. *)
Definition valid_time (tod : TimeOfDay) : bool :=
  match tod with
  | HM h mi => between 0 h 23 && between 0 mi 59
  | HMS h mi s => between 0 h 23 && between 0 mi 59 && between 0 s 59
  | HMSms h mi s ms =>
      between 0 h 23 && between 0 mi 59 && between 0 s 59 && between 0 ms 999
  end.

Definition valid (f : t) : bool :=
  match f with
  | Empty => true
  | DateOnly y m d => valid_date y m d
  | DateTimeUTC y m d tod => valid_date y m d && valid_time tod
  end.

(** The calendar date the string names. *)
Definition calendar_date (f : t) : jsstring :=
  match f with
  | Empty => []
  | DateOnly y m d | DateTimeUTC y m d _ => date_string y m d
  end.

End DueDate.

(** The fields the parser reads from a time of day. *)
Definition time_fields (tod : DueDate.TimeOfDay) : Z * Z * Z * Z :=
  match tod with
  | DueDate.HM h mi => (h, mi, 0, 0)
  | DueDate.HMS h mi s => (h, mi, s, 0)
  | DueDate.HMSms h mi s ms => (h, mi, s, ms)
  end.

(** The spec's example entity. *)
Definition t1 : Todo.t := {|
  Todo.id := js "t1"; Todo.title := js "X"; Todo.description := js "";
  Todo.completed := false; Todo.dueDate := js "2024-03-05T10:00:00Z";
  Todo.priority := high; Todo.status := pending;
  Todo.createdAt := js ""; Todo.updatedAt := js "" |}.

(** An entity whose title is three spaces. *)
Definition untitled : Todo.t := {|
  Todo.id := js "t2"; Todo.title := js "   "; Todo.description := js "";
  Todo.completed := false; Todo.dueDate := js "";
  Todo.priority := medium; Todo.status := pending;
  Todo.createdAt := js ""; Todo.updatedAt := js "" |}.

(** An entity due late in the evening, five hours west of Greenwich. *)
Definition late_evening : Todo.t := {|
  Todo.id := js "t3"; Todo.title := js "Call home"; Todo.description := js "";
  Todo.completed := false; Todo.dueDate := js "2024-03-05T23:00:00-05:00";
  Todo.priority := low; Todo.status := in_progress;
  Todo.createdAt := js ""; Todo.updatedAt := js "" |}.

(** The calendar date of a due date as it is written: the text before the
    time and zone. *)
Definition written_date (dueDate : jsstring) : jsstring := split_head (chr "T") dueDate.

(** Seeding as the spec words it, for one entity: on every host the seeded
    due date is the written calendar date, priority and status are copied. *)
Definition seeds_written_date (todo : Todo.t) : Prop :=
  forall host, exists fd,
    TodoFormModal.seed host todo = Normal fd
    /\ TodoFormState.dueDate fd = written_date (Todo.dueDate todo)
    /\ TodoFormState.priority fd = Todo.priority todo
    /\ TodoFormState.status fd = Todo.status todo.

(** Open-then-submit as the spec words it, for one entity: one record is
    saved, with the entity's fields, its written calendar date and its id. *)
Definition open_submit_returns (todo : Todo.t) : Prop :=
  forall host c, isOpen (props c) = false ->
  exists c' trace r,
    run host [open (Some todo); ui submit] c = Ran c' trace
    /\ saved trace = [r]
    /\ PartialTodo.title r = Some (Todo.title todo)
    /\ PartialTodo.description r = Some (Todo.description todo)
    /\ PartialTodo.dueDate r = Some (written_date (Todo.dueDate todo))
    /\ PartialTodo.priority r = Some (Todo.priority todo)
    /\ PartialTodo.status r = Some (Todo.status todo)
    /\ PartialTodo.completed r = Some (Status_eqb (Todo.status todo) completed)
    /\ PartialTodo.id r = Some (Todo.id todo).

(** An open form with a blank title and the other fields filled in. *)
Definition blank_form : Controller := {|
  props := {| isOpen := true; editingTodo := None |};
  formData := {|
    TodoFormState.title := js "   ";
    TodoFormState.description := js "d";
    TodoFormState.dueDate := js "2024-03-05";
    TodoFormState.priority := high;
    TodoFormState.status := in_progress |}
|}.

(** The form opened for editing [t1], as seeded. *)
Definition seeded_t1 : TodoFormState.t := {|
  TodoFormState.title := js "X";
  TodoFormState.description := js "";
  TodoFormState.dueDate := js "2024-03-05";
  TodoFormState.priority := high;
  TodoFormState.status := pending |}.

Definition edit_form : Controller := {|
  props := {| isOpen := true; editingTodo := Some t1 |};
  formData := seeded_t1
|}.

(** An open form whose title has spaces around it. *)
Definition padded_form : Controller := {|
  props := {| isOpen := true; editingTodo := None |};
  formData := {|
    TodoFormState.title := js "  x  ";
    TodoFormState.description := js "";
    TodoFormState.dueDate := js "";
    TodoFormState.priority := medium;
    TodoFormState.status := pending |}
|}.

(** ** The rest of the component: what it renders and its keydown effect *)

(** The part of the rendered tree that depends on the props and the state:
    the text of the heading, the [value] prop given to each of the five
    controls (what a control then displays is the browser's matter), and
    the text of the submit button. *)
Record View := {
  heading : jsstring;
  title_value : jsstring;
  description_value : jsstring;
  dueDate_value : jsstring;
  priority_value : Priority;
  status_value : Status;
  submit_label : jsstring
}.

(** What the component returns: [null] when the form is not open. *)
Definition render (p : TodoFormModalProps) (fd : TodoFormState.t) : option View :=
  if negb (isOpen p) then None
  else Some {|
    heading := match editingTodo p with
               | Some _ => js "Edit Todo"
               | None => js "Add New Todo"
               end;
    title_value := TodoFormState.title fd;
    description_value := TodoFormState.description fd;
    dueDate_value := TodoFormState.dueDate fd;
    priority_value := TodoFormState.priority fd;
    status_value := TodoFormState.status fd;
    submit_label := match editingTodo p with
                    | Some _ => js "Save Changes"
                    | None => js "Add Todo"
                    end
  |}.

(** The [value] prop of the control with a given [name]. *)
Definition value_prop (name : FieldName.t) (v : View) : FieldName.value name :=
  match name with
  | FieldName.title => title_value v
  | FieldName.description => description_value v
  | FieldName.dueDate => dueDate_value v
  | FieldName.priority => priority_value v
  | FieldName.status => status_value v
  end.

(** The second effect: the keydown listener of the document.  A listener
    is a closure; it is known by the effect run that created it and calls
    the [onClose] it captured.  Callbacks are compared by identity, which
    is a number here. *)
Module KeydownEffect.

Record Listener := {
  created : nat;
  captured_onClose : nat
}.

Definition Listener_eqb (a b : Listener) : bool :=
  Nat.eqb (created a) (created b) && Nat.eqb (captured_onClose a) (captured_onClose b).

(** [document.addEventListener('keydown', l)]: a listener that is already
    attached is not attached twice. *)
Definition addEventListener (l : Listener) (doc : list Listener) : list Listener :=
  if existsb (Listener_eqb l) doc then doc else doc ++ [l].

(** [document.removeEventListener('keydown', l)] *)
Definition removeEventListener (l : Listener) (doc : list Listener) : list Listener :=
  filter (fun l' => negb (Listener_eqb l l')) doc.

(** What React keeps of the effect between renders: the dependencies of its
    last run, the listener its cleanup will remove, and how often it ran. *)
Record Instance := {
  deps : option (bool * nat);
  cleanup : option Listener;
  runs : nat
}.

Definition unmounted : Instance := {| deps := None; cleanup := None; runs := 0 |}.

Definition run_cleanup (inst : Instance) (doc : list Listener) : list Listener :=
  match cleanup inst with
  | Some l => removeEventListener l doc
  | None => doc
  end.

(** The body of the effect, run number [n]: it makes a new [handleKeyDown],
    attaches it when the form is open and removes it (it was never attached)
    when not; the listener is what the cleanup removes. *)
Definition effect (isOpen : bool) (onClose : nat) (n : nat) (doc : list Listener)
  : list Listener * Listener :=
  let handleKeyDown := {| created := n; captured_onClose := onClose |} in
  (if isOpen then addEventListener handleKeyDown doc
   else removeEventListener handleKeyDown doc,
   handleKeyDown).

Definition same_deps (a b : bool * nat) : bool :=
  Bool.eqb (fst a) (fst b) && Nat.eqb (snd a) (snd b).

(** A render with the props [isOpen] and [onClose]: on the first render and
    when a dependency has changed, the cleanup of the last run and then the
    effect. *)
Definition render (p : bool * nat) (st : Instance * list Listener) : Instance * list Listener :=
  let '(inst, doc) := st in
  if match deps inst with Some d => same_deps d p | None => false end then st
  else
    let '(doc', l) := effect (fst p) (snd p) (runs inst) (run_cleanup inst doc) in
    ({| deps := Some p; cleanup := Some l; runs := S (runs inst) |}, doc').

Definition unmount (st : Instance * list Listener) : list Listener :=
  run_cleanup (fst st) (snd st).

(** The renders of a component's life, first to last. *)
Definition renders (ps : list (bool * nat)) : Instance * list Listener :=
  fold_left (fun st p => render p st) ps (unmounted, []).

(** A keydown event reaches every attached listener: the [onClose]
    callbacks that are called, in order. *)
Definition dispatch_keydown (key : jsstring) (doc : list Listener) : list nat :=
  flat_map (fun l => if JSString.eqb key (js "Escape") then [captured_onClose l] else []) doc.

(** Between renders the document holds the listener of the last effect run
    when the form is open, and no listener when it is not; that listener
    is the one the cleanup will remove and it calls the current [onClose]. *)
Definition attached_as_rendered (st : Instance * list Listener) : Prop :=
  match deps (fst st) with
  | None => cleanup (fst st) = None /\ snd st = []
  | Some p =>
      exists l, cleanup (fst st) = Some l
                /\ captured_onClose l = snd p
                /\ snd st = if fst p then [l] else []
  end.

End KeydownEffect.

(** ** Statements about scripts and saved records *)



(** A code unit that is not white space. *)
Definition has_ink (s : jsstring) : Prop := exists c, In c s /\ is_white c = false.


(** The form state after a list of edits, first to last. *)
Definition apply_edits (edits : list {name : FieldName.t & FieldName.value name})
    (fd : TodoFormState.t) : TodoFormState.t :=
  fold_left (fun fd e => TodoFormModal.handleChange (projT1 e) (projT2 e) fd) edits fd.

(** The value an edit gives to a field, when it is an edit of that field. *)
Definition edit_value (name : FieldName.t) (e : {n : FieldName.t & FieldName.value n})
  : option (FieldName.value name) :=
  match name as n return option (FieldName.value n) with
  | FieldName.title =>
      match e with existT _ FieldName.title v => Some v | _ => None end
  | FieldName.description =>
      match e with existT _ FieldName.description v => Some v | _ => None end
  | FieldName.dueDate =>
      match e with existT _ FieldName.dueDate v => Some v | _ => None end
  | FieldName.priority =>
      match e with existT _ FieldName.priority v => Some v | _ => None end
  | FieldName.status =>
      match e with existT _ FieldName.status v => Some v | _ => None end
  end.

(** The value of the last edit of a field in a list of edits, if any. *)
Fixpoint last_edit (name : FieldName.t)
    (edits : list {n : FieldName.t & FieldName.value n}) : option (FieldName.value name) :=
  match edits with
  | [] => None
  | e :: edits' =>
      match last_edit name edits' with
      | Some v => Some v
      | None => edit_value name e
      end
  end.

(** The date [toISOString] writes for a day number. *)
Definition iso_date (dayno : Z) : jsstring :=
  let '(y, m, d) := civil_from_days dayno in
  Date.year_string y ++ chr "-" :: pad 2 m ++ chr "-" :: pad 2 d.

(** An entity whose due date no host format is given for. *)
Definition someday : Todo.t := {|
  Todo.id := js "t4"; Todo.title := js "Tidy up"; Todo.description := js "";
  Todo.completed := false; Todo.dueDate := js "someday";
  Todo.priority := low; Todo.status := pending;
  Todo.createdAt := js ""; Todo.updatedAt := js "" |}.

(** [t1] as the parent keeps it after the form saved it: the due date is
    the one of the form, the completed flag is derived. *)
Definition saved_t1 : Todo.t := {|
  Todo.id := js "t1"; Todo.title := js "X"; Todo.description := js "";
  Todo.completed := false; Todo.dueDate := js "2024-03-05";
  Todo.priority := high; Todo.status := pending;
  Todo.createdAt := js "2024-03-01T08:00:00.000Z";
  Todo.updatedAt := js "2024-03-02T09:30:00.000Z" |}.

(** * Proofs *)

(** ** Facts about [trim] *)

Lemma trimStart_nil_iff (s : jsstring) :
  trimStart s = [] <-> forallb is_white s = true.
Proof.
  induction s as [|c s IH]; simpl.
  - tauto.
  - destruct (is_white c); simpl.
    + exact IH.
    + split; discriminate.
Qed.

Lemma trimStart_head (s : jsstring) c r :
  trimStart s = c :: r -> is_white c = false.
Proof.
  induction s as [|x s IH]; simpl; [discriminate|].
  destruct (is_white x) eqn:E; [exact IH|].
  intros [= <- _]. exact E.
Qed.

Lemma forallb_rev {A} (f : A -> bool) (l : list A) :
  forallb f (rev l) = forallb f l.
Proof.
  induction l as [|a l IH]; simpl; [reflexivity|].
  rewrite forallb_app, IH. simpl. rewrite andb_true_r. apply andb_comm.
Qed.

(** [trim] leaves nothing exactly when every code unit is white space. *)
Lemma trim_nil_iff (s : jsstring) :
  trim s = [] <-> forallb is_white s = true.
Proof.
  unfold trim, trimEnd. split.
  - intros H. apply (f_equal (@rev _)) in H. rewrite rev_involutive in H. simpl in H.
    apply trimStart_nil_iff in H. rewrite forallb_rev in H.
    destruct (trimStart s) as [|c r] eqn:E.
    + now apply trimStart_nil_iff.
    + apply trimStart_head in E. simpl in H. rewrite E in H. discriminate.
  - intros H. apply trimStart_nil_iff in H. rewrite H. reflexivity.
Qed.

Lemma truthy_false_iff (s : jsstring) : truthy s = false <-> s = [].
Proof. destruct s; simpl; split; congruence. Qed.

(** ** [handleChange] and [handleSubmit] *)

Lemma handleSubmit_blank editingTodo fd :
  trim (TodoFormState.title fd) = [] ->
  TodoFormModal.handleSubmit editingTodo fd
  = [preventDefault; alert (js "Todo title cannot be empty."); focusTitle].
Proof.
  intros H. unfold TodoFormModal.handleSubmit. rewrite H. reflexivity.
Qed.

Lemma handleSubmit_valid editingTodo fd :
  trim (TodoFormState.title fd) <> [] ->
  TodoFormModal.handleSubmit editingTodo fd
  = [preventDefault; onSave (TodoFormModal.todoToSave editingTodo fd); onClose].
Proof.
  intros H. unfold TodoFormModal.handleSubmit.
  destruct (truthy (trim (TodoFormState.title fd))) eqn:E; [reflexivity|].
  apply truthy_false_iff in E. contradiction.
Qed.

Lemma Controller_eta (c : Controller) :
  {| props := props c; formData := formData c |} = c.
Proof. now destruct c. Qed.

Lemma step_submit_blank host c :
  isOpen (props c) = true ->
  trim (TodoFormState.title (formData c)) = [] ->
  step host (ui submit) c
  = Ran c [preventDefault; alert (js "Todo title cannot be empty."); focusTitle].
Proof.
  intros Ho Hb. unfold step. rewrite Ho. simpl.
  rewrite (handleSubmit_blank _ _ Hb). unfold rerender, collaborator. simpl.
  rewrite eqb_reflx. now rewrite Controller_eta.
Qed.

Lemma step_submit_valid host c :
  isOpen (props c) = true ->
  trim (TodoFormState.title (formData c)) <> [] ->
  step host (ui submit) c
  = Ran {| props := {| isOpen := false; editingTodo := editingTodo (props c) |};
           formData := formData c |}
        [preventDefault;
         onSave (TodoFormModal.todoToSave (editingTodo (props c)) (formData c));
         onClose].
Proof.
  intros Ho Hv. unfold step. rewrite Ho. simpl.
  rewrite (handleSubmit_valid _ _ Hv). unfold rerender, collaborator. simpl.
  rewrite Ho. reflexivity.
Qed.

(** C2: a submit whose title trims to the empty string fails locally: no
    save, no close, the controller (props and every field of the form state)
    is unchanged and still open, and nothing is thrown. *)
Theorem submit_blank_title_fails_locally (host : Host) (c : Controller) :
  isOpen (props c) = true ->
  trim (TodoFormState.title (formData c)) = [] ->
  exists trace,
    step host (ui submit) c = Ran c trace
    /\ saved trace = []
    /\ closes trace = 0%nat
    /\ trace = [preventDefault; alert (js "Todo title cannot be empty."); focusTitle].
Proof.
  intros Ho Hb. eexists. split; [apply step_submit_blank; assumption|].
  repeat split.
Qed.

Lemma submit_blank_title_fails_locally_witness :
  exists trace,
    step utc_host (ui submit) blank_form = Ran blank_form trace
    /\ saved trace = []
    /\ closes trace = 0%nat
    /\ trace = [preventDefault; alert (js "Todo title cannot be empty."); focusTitle].
Proof.
  apply (submit_blank_title_fails_locally utc_host blank_form); reflexivity.
Defined.

(** C3: the record of a successful submit carries an id exactly when the
    form was opened with an entity, that id is the entity's, and it never
    carries createdAt or updatedAt. *)
Theorem saved_record_id_iff_editing (host : Host) (c c' : Controller)
    (trace : list Effect) (r : PartialTodo.t) :
  step host (ui submit) c = Ran c' trace ->
  In (onSave r) trace ->
  (PartialTodo.id r = None <-> editingTodo (props c) = None)
  /\ (forall todo, editingTodo (props c) = Some todo ->
        PartialTodo.id r = Some (Todo.id todo))
  /\ PartialTodo.createdAt r = None
  /\ PartialTodo.updatedAt r = None.
Proof.
  intros Hstep Hin.
  destruct (isOpen (props c)) eqn:Ho.
  - assert (Hr : r = TodoFormModal.todoToSave (editingTodo (props c)) (formData c)).
    { destruct (trim (TodoFormState.title (formData c))) eqn:Ht.
      - rewrite (step_submit_blank host c Ho Ht) in Hstep.
        injection Hstep as _ <-. simpl in Hin.
        repeat (destruct Hin as [Hin|Hin]; [discriminate|]). contradiction.
      - rewrite (step_submit_valid host c Ho) in Hstep by congruence.
        injection Hstep as _ <-. simpl in Hin.
        destruct Hin as [Hin|[Hin|[Hin|[]]]]; congruence. }
    subst r. destruct (editingTodo (props c)) as [todo|]; simpl.
    + repeat split; try discriminate. now intros ? [= <-].
    + repeat split; discriminate.
  - unfold step in Hstep. rewrite Ho in Hstep.
    injection Hstep as _ <-. contradiction.
Qed.

Lemma saved_record_id_iff_editing_witness :
  (PartialTodo.id (TodoFormModal.todoToSave (Some t1) (formData edit_form)) = None
   <-> Some t1 = None)
  /\ (forall todo, Some t1 = Some todo ->
        PartialTodo.id (TodoFormModal.todoToSave (Some t1) (formData edit_form))
        = Some (Todo.id todo))
  /\ PartialTodo.createdAt (TodoFormModal.todoToSave (Some t1) (formData edit_form)) = None
  /\ PartialTodo.updatedAt (TodoFormModal.todoToSave (Some t1) (formData edit_form)) = None.
Proof.
  apply (saved_record_id_iff_editing utc_host edit_form
           {| props := {| isOpen := false; editingTodo := Some t1 |};
              formData := formData edit_form |}
           [preventDefault;
            onSave (TodoFormModal.todoToSave (Some t1) (formData edit_form));
            onClose]).
  - reflexivity.
  - simpl. right. left. reflexivity.
Defined.

(** C6: [handleChange] sets the named field to the given value and leaves
    the four other fields as they were; as an event it changes nothing else
    of the controller and calls nothing. *)
Theorem handleChange_sets_one_field (host : Host) (name : FieldName.t)
    (value : FieldName.value name) (fd : TodoFormState.t) :
  FieldName.get name (TodoFormModal.handleChange name value fd) = value
  /\ (forall other, other <> name ->
        FieldName.get other (TodoFormModal.handleChange name value fd)
        = FieldName.get other fd)
  /\ (forall p, isOpen p = true ->
        step host (ui (change name value)) {| props := p; formData := fd |}
        = Ran {| props := p; formData := TodoFormModal.handleChange name value fd |} []).
Proof.
  split; [|split].
  - destruct name; reflexivity.
  - intros other Hne. destruct name, other; try reflexivity; contradiction.
  - intros p Hp. unfold step, rerender, collaborator. simpl. rewrite Hp. simpl.
    reflexivity.
Qed.

Lemma handleChange_sets_one_field_witness :
  FieldName.get FieldName.status
    (TodoFormModal.handleChange FieldName.status completed (formData blank_form))
  = completed
  /\ FieldName.get FieldName.title
       (TodoFormModal.handleChange FieldName.status completed (formData blank_form))
     = js "   "
  /\ step utc_host (ui (change FieldName.status completed)) blank_form
     = Ran {| props := props blank_form;
              formData := TodoFormModal.handleChange FieldName.status completed
                            (formData blank_form) |} [].
Proof.
  pose proof (handleChange_sets_one_field utc_host FieldName.status completed
                (formData blank_form)) as (H1 & H2 & H3).
  split; [exact H1|]. split.
  - exact (H2 FieldName.title ltac:(discriminate)).
  - exact (H3 (props blank_form) eq_refl).
Defined.

(** C9: a title that is not blank is saved as it is stored, untrimmed. *)
Theorem submit_saves_title_untrimmed (host : Host) (c : Controller) :
  isOpen (props c) = true ->
  trim (TodoFormState.title (formData c)) <> [] ->
  exists c' r,
    step host (ui submit) c = Ran c' [preventDefault; onSave r; onClose]
    /\ PartialTodo.title r = Some (TodoFormState.title (formData c)).
Proof.
  intros Ho Hv. do 2 eexists. split.
  - apply step_submit_valid; assumption.
  - reflexivity.
Qed.

Lemma submit_saves_title_untrimmed_witness :
  trim (js "  x  ") = js "x"
  /\ exists c' r,
       step utc_host (ui submit) padded_form = Ran c' [preventDefault; onSave r; onClose]
       /\ PartialTodo.title r = Some (js "  x  ").
Proof.
  split; [reflexivity|].
  apply (submit_saves_title_untrimmed utc_host padded_form).
  - reflexivity.
  - vm_compute. discriminate.
Defined.

(** C10: an entity with an empty due date is seeded with an empty due date,
    whatever the host; no date is parsed and nothing is thrown. *)
Theorem seed_empty_dueDate (host : Host) (todo : Todo.t) :
  Todo.dueDate todo = js "" ->
  TodoFormModal.seed host todo
  = Normal {|
      TodoFormState.title := Todo.title todo;
      TodoFormState.description := Todo.description todo;
      TodoFormState.dueDate := js "";
      TodoFormState.priority := Todo.priority todo;
      TodoFormState.status := Todo.status todo |}
  /\ (forall c, isOpen (props c) = false ->
        exists c', step host (open (Some todo)) c = Ran c' [setTimeout_focusTitle]
                   /\ TodoFormState.dueDate (formData c') = js "").
Proof.
  intros He.
  assert (Hs : TodoFormModal.seed host todo = Normal {|
      TodoFormState.title := Todo.title todo;
      TodoFormState.description := Todo.description todo;
      TodoFormState.dueDate := js "";
      TodoFormState.priority := Todo.priority todo;
      TodoFormState.status := Todo.status todo |}).
  { unfold TodoFormModal.seed, TodoFormModal.formatDueDate. rewrite He. reflexivity. }
  split; [exact Hs|].
  intros c Hc. unfold step, rerender, TodoFormModal.seedingEffect.
  rewrite Hc. cbn [isOpen editingTodo Bool.eqb]. rewrite Hs.
  eexists. split; reflexivity.
Qed.

Lemma seed_empty_dueDate_witness :
  TodoFormModal.seed utc_host untitled
  = Normal {|
      TodoFormState.title := js "   ";
      TodoFormState.description := js "";
      TodoFormState.dueDate := js "";
      TodoFormState.priority := medium;
      TodoFormState.status := pending |}
  /\ exists c', step utc_host (open (Some untitled)) mounted = Ran c' [setTimeout_focusTitle]
                /\ TodoFormState.dueDate (formData c') = js "".
Proof.
  pose proof (seed_empty_dueDate utc_host untitled eq_refl) as [H1 H2].
  split; [exact H1|]. exact (H2 mounted eq_refl).
Defined.

(** ** Scripts of events *)

Lemma saved_app (t t' : list Effect) : saved (t ++ t') = saved t ++ saved t'.
Proof.
  induction t as [|e t IH]; simpl; [reflexivity|].
  destruct e; simpl; now rewrite IH.
Qed.

Lemma run_app host (evs evs' : list Event) (c : Controller) :
  run host (evs ++ evs') c
  = match run host evs c with
    | Ran c' trace =>
        match run host evs' c' with
        | Ran c'' trace' => Ran c'' (trace ++ trace')
        | o => o
        end
    | o => o
    end.
Proof.
  revert c. induction evs as [|ev evs IH]; intros c; simpl.
  - destruct (run host evs' c); reflexivity.
  - destruct (step host ev c) as [c1 t1| |]; try reflexivity.
    rewrite IH. destruct (run host evs c1) as [c2 t2| |]; try reflexivity.
    destruct (run host evs' c2) as [c3 t3| |]; try reflexivity.
    now rewrite app_assoc.
Qed.

(** Edits keep the form open, leave its props alone and call nothing. *)
Lemma run_edits host edits (c : Controller) :
  isOpen (props c) = true ->
  exists fd, run host (map setField edits) c = Ran {| props := props c; formData := fd |} [].
Proof.
  revert c. induction edits as [|[name value] edits IH]; intros c Ho; simpl.
  - exists (formData c). now rewrite Controller_eta.
  - unfold rerender, collaborator. rewrite Ho. simpl. rewrite eqb_reflx.
    destruct (IH {| props := props c;
                    formData := TodoFormModal.handleChange name value (formData c) |} Ho)
      as [fd Hfd].
    rewrite Hfd. now exists fd.
Qed.

Lemma step_dismissal host (ev : UIEvent) (c : Controller) :
  dismissal ev = true -> isOpen (props c) = true ->
  exists trace,
    step host (ui ev) c
    = Ran {| props := {| isOpen := false; editingTodo := editingTodo (props c) |};
             formData := formData c |} trace
    /\ saved trace = [] /\ closes trace = 1%nat.
Proof.
  intros Hd Ho. unfold step, rerender, collaborator. rewrite Ho.
  destruct ev; try discriminate; simpl in *;
    try (unfold TodoFormModal.handleKeyDown; rewrite Hd; simpl);
    rewrite Ho; simpl; eexists; repeat split.
Qed.

Lemma step_open host (todo : option Todo.t) (c : Controller) :
  isOpen (props c) = false ->
  step host (open todo) c
  = match (match todo with
           | Some e => TodoFormModal.seed host e
           | None => Normal defaultFormState
           end) with
    | Normal fd => Ran {| props := {| isOpen := true; editingTodo := todo |};
                          formData := fd |} [setTimeout_focusTitle]
    | Throw e => Threw e
    end.
Proof.
  intros Hc. unfold step, rerender, TodoFormModal.seedingEffect.
  rewrite Hc. cbn [isOpen editingTodo Bool.eqb].
  destruct todo as [e|]; [destruct (TodoFormModal.seed host e)|]; reflexivity.
Qed.

(** C7: opening with an entity, editing, dismissing and opening with the
    same entity again seeds the same form state as the first opening did:
    the seed is a function of the entity alone.  (When the first opening
    throws, so does the whole sequence, at that opening.) *)
Theorem reopen_seeds_identically (host : Host) (todo : Todo.t) (c : Controller)
    (edits : list {name : FieldName.t & FieldName.value name}) (cancel : UIEvent) :
  isOpen (props c) = false ->
  dismissal cancel = true ->
  let script := open (Some todo) :: map setField edits ++ [ui cancel; open (Some todo)] in
  match step host (open (Some todo)) c with
  | Ran c1 _ =>
      TodoFormModal.seed host todo = Normal (formData c1)
      /\ exists c3 trace, run host script c = Ran c3 trace
                          /\ formData c3 = formData c1
                          /\ saved trace = []
  | Threw e => run host script c = Threw e
  | NotEnabled => False
  end.
Proof.
  intros Hc Hd script. subst script.
  rewrite (step_open host (Some todo) c Hc).
  destruct (TodoFormModal.seed host todo) as [fd|e] eqn:Hseed.
  - split; [reflexivity|].
    cbn [run]. rewrite (step_open host (Some todo) c Hc), Hseed.
    rewrite run_app.
    set (c1 := {| props := {| isOpen := true; editingTodo := Some todo |}; formData := fd |}).
    destruct (run_edits host edits c1 eq_refl) as [fd' ->].
    cbn [run].
    set (c2 := {| props := props c1; formData := fd' |}).
    destruct (step_dismissal host cancel c2 Hd eq_refl) as (t & -> & Hsaved & _).
    rewrite step_open by reflexivity. rewrite Hseed.
    do 2 eexists. split; [reflexivity|]. split; [reflexivity|].
    rewrite !saved_app, Hsaved. reflexivity.
  - cbn [run]. rewrite (step_open host (Some todo) c Hc), Hseed. reflexivity.
Qed.

Lemma reopen_seeds_identically_witness :
  TodoFormModal.seed utc_host t1 = Normal seeded_t1
  /\ exists c3 trace,
       run utc_host
         [open (Some t1);
          ui (change FieldName.title (js "Y"));
          ui (change FieldName.dueDate (js "2030-01-01"));
          ui clickCancelButton;
          open (Some t1)] mounted = Ran c3 trace
       /\ formData c3 = seeded_t1
       /\ saved trace = [].
Proof.
  exact (reopen_seeds_identically utc_host t1 mounted
           [existT _ FieldName.title (js "Y");
            existT _ FieldName.dueDate (js "2030-01-01")]
           clickCancelButton eq_refl eq_refl).
Defined.

(** C8: every dismissal of an open form closes it, saves nothing and leaves
    the form state alone; a dismissal that arrives when the form is already
    closed does nothing at all, so two in a row close once and never save. *)
Theorem dismissal_closes_without_saving (host : Host) (c : Controller)
    (ev ev' : UIEvent) :
  dismissal ev = true -> dismissal ev' = true ->
  (isOpen (props c) = true ->
     exists c' trace,
       step host (ui ev) c = Ran c' trace
       /\ isOpen (props c') = false
       /\ formData c' = formData c
       /\ saved trace = [] /\ closes trace = 1%nat
       /\ step host (ui ev') c' = Ran c' []
       /\ exists trace2,
            run host [ui ev; ui ev'] c = Ran c' trace2
            /\ saved trace2 = [] /\ closes trace2 = 1%nat)
  /\ (isOpen (props c) = false -> step host (ui ev) c = Ran c []).
Proof.
  intros Hd Hd'. split.
  - intros Ho. destruct (step_dismissal host ev c Hd Ho) as (t & Hs & Hsaved & Hcl).
    do 2 eexists. split; [exact Hs|].
    do 2 (split; [reflexivity|]). do 2 (split; [assumption|]).
    split; [reflexivity|].
    exists t. split; [|split; assumption].
    cbn [run]. rewrite Hs. cbn [step props isOpen]. now rewrite !app_nil_r.
  - intros Hc. unfold step. rewrite Hc. reflexivity.
Qed.

Lemma dismissal_closes_without_saving_witness :
  (exists c' trace,
     step utc_host (ui (keydown (js "Escape"))) blank_form = Ran c' trace
     /\ isOpen (props c') = false
     /\ formData c' = formData blank_form
     /\ saved trace = [] /\ closes trace = 1%nat
     /\ step utc_host (ui clickCancelButton) c' = Ran c' []
     /\ exists trace2,
          run utc_host [ui (keydown (js "Escape")); ui clickCancelButton] blank_form
          = Ran c' trace2
          /\ saved trace2 = [] /\ closes trace2 = 1%nat)
  /\ step utc_host (ui clickOverlay) mounted = Ran mounted [].
Proof.
  split.
  - exact (proj1 (dismissal_closes_without_saving utc_host blank_form
                    (keydown (js "Escape")) clickCancelButton eq_refl eq_refl) eq_refl).
  - exact (proj2 (dismissal_closes_without_saving utc_host mounted
                    clickOverlay clickOverlay eq_refl eq_refl) eq_refl).
Defined.

(** A click inside the content box is stopped there and closes nothing. *)
Lemma click_inside_keeps_open (host : Host) (c : Controller) :
  isOpen (props c) = true ->
  step host (ui clickContent) c = Ran c [stopPropagation].
Proof.
  intros Ho. unfold step, rerender, collaborator. rewrite Ho. simpl.
  rewrite eqb_reflx. now rewrite Controller_eta.
Qed.

(** C4: on a closed form, opening for creation seeds the defaults, and then
    setting the title to Buy milk, the status to completed and submitting
    calls onSave once, with exactly that record and no id, and closes. *)
Theorem create_buy_milk_scenario (host : Host) (c : Controller) :
  isOpen (props c) = false ->
  step host (open None) c
  = Ran {| props := {| isOpen := true; editingTodo := None |};
           formData := {|
             TodoFormState.title := js "";
             TodoFormState.description := js "";
             TodoFormState.dueDate := js "";
             TodoFormState.priority := medium;
             TodoFormState.status := pending |} |}
        [setTimeout_focusTitle]
  /\ exists c' trace,
       run host [open None;
                 ui (change FieldName.title (js "Buy milk"));
                 ui (change FieldName.status completed);
                 ui submit] c = Ran c' trace
       /\ saved trace = [ {|
            PartialTodo.id := None;
            PartialTodo.title := Some (js "Buy milk");
            PartialTodo.description := Some (js "");
            PartialTodo.completed := Some true;
            PartialTodo.dueDate := Some (js "");
            PartialTodo.priority := Some medium;
            PartialTodo.status := Some completed;
            PartialTodo.createdAt := None;
            PartialTodo.updatedAt := None |} ]
       /\ closes trace = 1%nat
       /\ isOpen (props c') = false.
Proof.
  intros Hc. split.
  - rewrite step_open by assumption. reflexivity.
  - cbn [run]. rewrite step_open by assumption.
    do 2 eexists. split; [vm_compute; reflexivity|].
    repeat split.
Qed.

Lemma create_buy_milk_scenario_witness :
  exists c' trace,
    run utc_host [open None;
                  ui (change FieldName.title (js "Buy milk"));
                  ui (change FieldName.status completed);
                  ui submit] mounted = Ran c' trace
    /\ saved trace = [ {|
         PartialTodo.id := None;
         PartialTodo.title := Some (js "Buy milk");
         PartialTodo.description := Some (js "");
         PartialTodo.completed := Some true;
         PartialTodo.dueDate := Some (js "");
         PartialTodo.priority := Some medium;
         PartialTodo.status := Some completed;
         PartialTodo.createdAt := None;
         PartialTodo.updatedAt := None |} ]
    /\ closes trace = 1%nat
    /\ isOpen (props c') = false.
Proof.
  exact (proj2 (create_buy_milk_scenario utc_host mounted eq_refl)).
Defined.

(** ** Reading back what [pad] writes *)

Lemma digit_val_char (d : Z) : 0 <= d <= 9 -> digit_val (digit_char d) = Some d.
Proof.
  intros H. unfold digit_val, digit_char. rewrite Z2N.id by lia.
  replace (48 <=? 48 + d) with true by (symmetry; apply Z.leb_le; lia).
  replace (48 + d <=? 57) with true by (symmetry; apply Z.leb_le; lia).
  cbn [andb]. f_equal. lia.
Qed.

Lemma digit_char_eqb (d : Z) (c : code_unit) :
  0 <= d <= 9 -> (c < 48 \/ 57 < c)%N -> N.eqb (digit_char d) c = false.
Proof.
  intros H Hc. apply N.eqb_neq. unfold digit_char. intros E.
  apply (f_equal Z.of_N) in E. rewrite Z2N.id in E by lia. lia.
Qed.

Lemma mod10_range (z : Z) : 0 <= z mod 10 <= 9.
Proof. pose proof (Z.mod_pos_bound z 10). lia. Qed.

Lemma read_digits_pad (n : nat) (acc z : Z) (rest : jsstring) :
  read_digits n acc (pad n z ++ rest)
  = Some (acc * 10 ^ Z.of_nat n + z mod 10 ^ Z.of_nat n, rest).
Proof.
  revert acc. induction n as [|n IH]; intros acc.
  - simpl. rewrite Z.mod_1_r. do 2 f_equal. lia.
  - cbn [pad read_digits app]. rewrite digit_val_char by apply mod10_range.
    rewrite IH. do 2 f_equal.
    rewrite Nat2Z.inj_succ, Z.pow_succ_r by lia.
    rewrite (Z.mul_comm 10), Z.rem_mul_r by lia. lia.
Qed.

Lemma read_digits_pad_small (n : nat) (z : Z) (rest : jsstring) :
  0 <= z < 10 ^ Z.of_nat n ->
  read_digits n 0 (pad n z ++ rest) = Some (z, rest).
Proof.
  intros H. rewrite read_digits_pad, Z.mod_small by assumption. reflexivity.
Qed.

Lemma pad_digits (n : nat) (z : Z) :
  Forall (fun c => (48 <= c <= 57)%N) (pad n z).
Proof.
  induction n as [|n IH]; cbn [pad]; constructor; [|exact IH].
  pose proof (mod10_range (z / 10 ^ Z.of_nat n)). unfold digit_char. lia.
Qed.

Lemma starts_with_pad (a : ascii) (n : nat) (z : Z) (rest : jsstring) :
  (chr a < 48 \/ 57 < chr a)%N ->
  DateString.starts_with a (pad (S n) z ++ rest) = false.
Proof.
  intros H. cbn [pad app DateString.starts_with].
  apply digit_char_eqb; [apply mod10_range | exact H].
Qed.

Lemma split_head_app (sep : code_unit) (pre rest : jsstring) :
  Forall (fun c => c <> sep) pre ->
  split_head sep (pre ++ sep :: rest) = pre.
Proof.
  induction 1 as [|c pre Hc _ IH]; simpl.
  - now rewrite N.eqb_refl.
  - apply N.eqb_neq in Hc. rewrite Hc. now rewrite IH.
Qed.

Lemma split_head_none (sep : code_unit) (s : jsstring) :
  Forall (fun c => c <> sep) s -> split_head sep s = s.
Proof.
  induction 1 as [|c s Hc _ IH]; simpl; [reflexivity|].
  apply N.eqb_neq in Hc. rewrite Hc. now rewrite IH.
Qed.

Lemma date_string_no_T (y m d : Z) :
  Forall (fun c => c <> chr "T") (DueDate.date_string y m d).
Proof.
  unfold DueDate.date_string.
  assert (Hp : forall n z, Forall (fun c => c <> chr "T") (pad n z)).
  { intros n z. eapply Forall_impl; [|apply pad_digits].
    intros c Hc E. simpl in Hc. subst c. vm_compute in Hc. destruct Hc as [_ Hc]. now apply Hc. }
  repeat (apply Forall_app; split; try apply Hp; try (constructor; [discriminate|])).
  apply Hp.
Qed.

Arguments pad : simpl never.
Arguments read_digits : simpl never.

Ltac norm_app := repeat (rewrite <- app_assoc || rewrite <- app_comm_cons).

Lemma valid_date_spec (y m d : Z) :
  DueDate.valid_date y m d = true <->
  0 <= y <= 9999 /\ 1 <= m <= 12 /\ 1 <= d <= days_in_month y m.
Proof.
  unfold DueDate.valid_date. rewrite !andb_true_iff, !Z.leb_le. tauto.
Qed.

Lemma between_spec (lo x hi : Z) : DueDate.between lo x hi = true <-> lo <= x <= hi.
Proof. unfold DueDate.between. rewrite andb_true_iff, !Z.leb_le. tauto. Qed.

Lemma days_in_month_le_31 (y m : Z) : days_in_month y m <= 31.
Proof.
  unfold days_in_month.
  destruct (m =? 2); [destruct (is_leap y); lia|].
  destruct ((m =? 4) || (m =? 6) || (m =? 9) || (m =? 11)); lia.
Qed.

Lemma read_year_pad (y : Z) (r : jsstring) :
  0 <= y <= 9999 -> DateString.read_year (pad 4 y ++ r) = Some (y, r).
Proof.
  intros Hy. unfold DateString.read_year.
  rewrite !starts_with_pad by (vm_compute; auto).
  apply read_digits_pad_small. simpl. lia.
Qed.

Lemma read_month_day_pad (m d : Z) (r : jsstring) :
  0 <= m <= 99 -> 0 <= d <= 99 ->
  DateString.read_month_day (chr "-" :: pad 2 m ++ chr "-" :: pad 2 d ++ r)
  = Some (m, d, r).
Proof.
  intros Hm Hd. unfold DateString.read_month_day.
  cbn [DateString.starts_with tl]. rewrite N.eqb_refl.
  rewrite read_digits_pad_small by (simpl; lia). cbn [obind].
  cbn [DateString.starts_with tl]. rewrite N.eqb_refl.
  rewrite read_digits_pad_small by (simpl; lia). reflexivity.
Qed.

Lemma read_time_string (tod : DueDate.TimeOfDay) (r : jsstring) :
  DueDate.valid_time tod = true ->
  DateString.read_time (DueDate.time_string tod ++ chr "Z" :: r)
  = Some (time_fields tod, chr "Z" :: r).
Proof.
  unfold DateString.read_time.
  destruct tod as [h mi|h mi s|h mi s ms]; cbn [DueDate.valid_time DueDate.time_string];
    rewrite ?andb_true_iff, ?between_spec; intros Hv; norm_app;
    repeat (rewrite read_digits_pad_small by (simpl; lia); cbn [obind];
            cbn [DateString.expect DateString.starts_with tl];
            try change (N.eqb (chr ":") (chr ":")) with true;
            try change (N.eqb (chr ".") (chr ".")) with true;
            cbn [obind]);
    reflexivity.
Qed.

Lemma read_fields_date_only (y m d : Z) :
  DueDate.valid_date y m d = true ->
  DateString.read_fields (DueDate.date_string y m d)
  = Some {| DateString.year := y; DateString.month := m; DateString.day := d;
            DateString.time := None; DateString.zone := DateString.ZoneAbsent |}.
Proof.
  intros Hv. apply valid_date_spec in Hv. destruct Hv as (Hy & Hm & Hd).
  pose proof (days_in_month_le_31 y m).
  unfold DateString.read_fields, DueDate.date_string.
  rewrite read_year_pad by assumption. cbn [obind].
  rewrite <- (app_nil_r (pad 2 d)).
  rewrite read_month_day_pad by lia. reflexivity.
Qed.

Lemma read_fields_date_time (y m d : Z) (tod : DueDate.TimeOfDay) :
  DueDate.valid_date y m d = true -> DueDate.valid_time tod = true ->
  DateString.read_fields
    (DueDate.date_string y m d ++ chr "T" :: DueDate.time_string tod ++ [chr "Z"])
  = Some {| DateString.year := y; DateString.month := m; DateString.day := d;
            DateString.time := Some (time_fields tod);
            DateString.zone := DateString.ZoneUTC |}.
Proof.
  intros Hv Ht. apply valid_date_spec in Hv. destruct Hv as (Hy & Hm & Hd).
  pose proof (days_in_month_le_31 y m).
  unfold DateString.read_fields, DueDate.date_string. norm_app.
  rewrite read_year_pad by assumption. cbn [obind].
  rewrite read_month_day_pad by lia. cbn [obind].
  change (N.eqb (chr "T") (chr "T")) with true. cbn iota.
  rewrite read_time_string by assumption. cbn [obind].
  destruct (time_fields tod) as [[[h mi] s] ms]. reflexivity.
Qed.

(** ** The calendar round trip *)

Lemma is_leap_spec (y : Z) :
  is_leap y = true <-> (y mod 4 = 0 /\ y mod 100 <> 0) \/ y mod 400 = 0.
Proof.
  unfold is_leap.
  rewrite orb_true_iff, andb_true_iff, negb_true_iff, !Z.eqb_eq, Z.eqb_neq. tauto.
Qed.

Section YearOfEra.
Variables yoe doy : Z.
Hypothesis Hyoe : 0 <= yoe <= 399.
Hypothesis Hdoy : 0 <= doy <= 365.
(** Day 365 of a year that starts in March exists only when the next
    calendar year is a leap year. *)
Hypothesis Hlast : doy = 365 -> yoe mod 4 = 3 /\ (yoe mod 100 <> 99 \/ yoe = 399).

Let doe := yoe * 365 + yoe / 4 - yoe / 100 + doy.

Lemma doe_bounds : 0 <= doe < 146097.
Proof. subst doe. Z.div_mod_to_equations; lia. Qed.

Lemma yoe_recover : (doe - doe / 1460 + doe / 36524 - doe / 146096) / 365 = yoe.
Proof. subst doe. Z.div_mod_to_equations; lia. Qed.

End YearOfEra.

Lemma month_recover (mp d : Z) :
  0 <= mp <= 11 -> 1 <= d <= 31 ->
  (mp = 1 \/ mp = 3 \/ mp = 6 \/ mp = 8 -> d <= 30) ->
  (mp = 11 -> d <= 29) ->
  (5 * ((153 * mp + 2) / 5 + d - 1) + 2) / 153 = mp.
Proof. intros. Z.div_mod_to_equations; lia. Qed.

Lemma civil_from_days_from_civil (y m d : Z) :
  1 <= m <= 12 -> 1 <= d <= days_in_month y m ->
  civil_from_days (days_from_civil y m d) = (y, m, d).
Proof.
  intros Hm Hd.
  unfold days_in_month in Hd.
  assert (Hleap := is_leap_spec y).
  unfold civil_from_days, days_from_civil.
  set (y' := if m <=? 2 then y - 1 else y).
  set (era := y' / 400).
  set (yoe := y' - era * 400).
  set (mp := if 2 <? m then m - 3 else m + 9).
  set (doy := (153 * mp + 2) / 5 + d - 1).
  set (doe := yoe * 365 + yoe / 4 - yoe / 100 + doy).
  assert (Hyoe : 0 <= yoe <= 399) by (subst yoe era; Z.div_mod_to_equations; lia).
  assert (Hmp : 0 <= mp <= 11 /\ m = (if mp <? 10 then mp + 3 else mp - 9)).
  { subst mp. destruct (Z.ltb_spec 2 m).
    - destruct (Z.ltb_spec (m - 3) 10); lia.
    - destruct (Z.ltb_spec (m + 9) 10); lia. }
  destruct Hmp as [Hmp Hm'].
  assert (Hdm : 1 <= d <= 31 /\ (mp = 1 \/ mp = 3 \/ mp = 6 \/ mp = 8 -> d <= 30)
                /\ (mp = 11 -> d <= 29)
                /\ (mp = 11 -> d = 29 -> is_leap y = true)).
  { subst mp. destruct (Z.ltb_spec 2 m).
    - replace (m =? 2) with false in Hd by (symmetry; apply Z.eqb_neq; lia).
      destruct ((m =? 4) || (m =? 6) || (m =? 9) || (m =? 11)) eqn:E.
      + lia.
      + repeat (apply orb_false_elim in E; destruct E as [E ?]).
        rewrite Z.eqb_neq in *. lia.
    - destruct (Z.eqb_spec m 2).
      + destruct (is_leap y); lia.
      + assert (m = 1) as -> by lia. simpl in Hd. lia. }
  destruct Hdm as (Hd31 & H30 & H29 & Hl).
  assert (Hmrec := month_recover mp d Hmp Hd31 H30 H29). fold doy in Hmrec.
  assert (Hdoy : 0 <= doy <= 365) by (subst doy; Z.div_mod_to_equations; lia).
  assert (Hl' : doy = 365 -> yoe mod 4 = 3 /\ (yoe mod 100 <> 99 \/ yoe = 399)).
  { intros E.
    assert (mp = 11 /\ d = 29) as [E1 E2] by (subst doy; Z.div_mod_to_equations; lia).
    specialize (Hl E1 E2). apply Hleap in Hl.
    assert (m <= 2) by (subst mp; destruct (Z.ltb_spec 2 m); lia).
    subst yoe era y'. destruct (Z.leb_spec m 2); [|lia].
    Z.div_mod_to_equations; lia. }
  assert (Hdoe := doe_bounds yoe doy Hyoe Hdoy Hl'). fold doe in Hdoe.
  assert (Hyrec := yoe_recover yoe doy Hyoe Hdoy Hl'). fold doe in Hyrec.
  replace (era * 146097 + doe - 719468 + 719468) with (doe + era * 146097) by lia.
  rewrite Z.div_add by lia. rewrite (Z.div_small doe) by lia. rewrite Z.add_0_l.
  replace (doe + era * 146097 - era * 146097) with doe by lia.
  rewrite Hyrec.
  replace (doe - (365 * yoe + yoe / 4 - yoe / 100)) with doy by (subst doe; lia).
  rewrite Hmrec. rewrite <- Hm'.
  f_equal; [f_equal|].
  - subst yoe era y'. destruct (Z.leb_spec m 2); lia.
  - subst doy. lia.
Qed.

Lemma days_from_civil_bounds (y m d : Z) :
  0 <= y <= 9999 -> 1 <= m <= 12 -> 1 <= d <= 31 ->
  -720000 <= days_from_civil y m d <= 3000000.
Proof.
  intros Hy Hm Hd. unfold days_from_civil.
  destruct (m <=? 2), (2 <? m); Z.div_mod_to_equations; lia.
Qed.

Lemma MakeTime_bounds (h mi s ms : Z) :
  0 <= h <= 23 -> 0 <= mi <= 59 -> 0 <= s <= 59 -> 0 <= ms <= 999 ->
  0 <= MakeTime h mi s ms < msPerDay.
Proof. unfold MakeTime, msPerDay, msPerHour, msPerMinute, msPerSecond. lia. Qed.

(** The date part of [toISOString] for a moment of the day [y]-[m]-[d]. *)
Lemma toISOString_date (y m d tod : Z) :
  0 <= y <= 9999 -> 1 <= m <= 12 -> 1 <= d <= days_in_month y m ->
  0 <= tod < msPerDay ->
  exists rest,
    Date.toISOString (Some (MakeDate (days_from_civil y m d) tod))
    = Normal (DueDate.date_string y m d ++ chr "T" :: rest).
Proof.
  intros Hy Hm Hd Ht. unfold Date.toISOString, MakeDate.
  assert (Hq : (days_from_civil y m d * msPerDay + tod) / msPerDay = days_from_civil y m d).
  { rewrite Z.div_add_l by discriminate. rewrite Z.div_small by assumption. lia. }
  rewrite Hq, civil_from_days_from_civil by assumption.
  unfold Date.year_string.
  replace ((0 <=? y) && (y <=? 9999)) with true
    by (symmetry; apply andb_true_iff; rewrite !Z.leb_le; lia).
  eexists. unfold DueDate.date_string. norm_app. reflexivity.
Qed.

Lemma TimeClip_small (tv : Z) :
  Z.abs tv <= 8640000000000000 -> TimeClip tv = Some tv.
Proof.
  intros H. unfold TimeClip.
  now replace (Z.abs tv <=? 8640000000000000) with true by (symmetry; apply Z.leb_le; lia).
Qed.

Lemma in_bounds_date (y m d : Z) tm z :
  DueDate.valid_date y m d = true ->
  DateString.in_bounds {| DateString.year := y; DateString.month := m;
                          DateString.day := d; DateString.time := tm;
                          DateString.zone := z |}
  = match tm with
    | None => true
    | Some (h, mi, sec, ms) =>
        (mi <=? 59) && (sec <=? 59)
        && ((h <=? 23) || ((h =? 24) && (mi =? 0) && (sec =? 0) && (ms =? 0)))
    end
    && match z with
       | DateString.ZoneOffset _ h mi => (h <=? 23) && (mi <=? 59)
       | _ => true
       end.
Proof.
  intros Hv. unfold DueDate.valid_date in Hv. unfold DateString.in_bounds.
  cbn [DateString.year DateString.month DateString.day DateString.time DateString.zone].
  rewrite !andb_true_iff in Hv. destruct Hv as [[[[[_ _] H1] H2] H3] H4].
  now rewrite H1, H2, H3, H4.
Qed.

Lemma time_fields_bounds (tod : DueDate.TimeOfDay) :
  DueDate.valid_time tod = true ->
  let '(h, mi, s, ms) := time_fields tod in
  0 <= h <= 23 /\ 0 <= mi <= 59 /\ 0 <= s <= 59 /\ 0 <= ms <= 999.
Proof.
  destruct tod; cbn [DueDate.valid_time time_fields];
    rewrite ?andb_true_iff, ?between_spec; intros; lia.
Qed.

(** [new Date] of a valid due date in UTC is the moment it names. *)
Lemma Date_new_utc (host : Host) (f : DueDate.t) :
  DueDate.valid f = true ->
  match f with
  | DueDate.Empty => True
  | DueDate.DateOnly y m d =>
      Date.new host (DueDate.render f) = Some (MakeDate (days_from_civil y m d) 0)
  | DueDate.DateTimeUTC y m d tod =>
      let '(h, mi, s, ms) := time_fields tod in
      Date.new host (DueDate.render f)
      = Some (MakeDate (days_from_civil y m d) (MakeTime h mi s ms))
  end.
Proof.
  destruct f as [|y m d|y m d tod]; cbn [DueDate.valid DueDate.render]; [trivial| |].
  - intros Hv. unfold Date.new, DateString.parse.
    rewrite read_fields_date_only, in_bounds_date by assumption.
    cbn [andb obind DateString.time_value DateString.year DateString.month
         DateString.day DateString.time].
    apply valid_date_spec in Hv. destruct Hv as (Hy & Hm & Hd).
    pose proof (days_in_month_le_31 y m).
    pose proof (days_from_civil_bounds y m d Hy Hm ltac:(lia)).
    apply TimeClip_small. unfold MakeDate, msPerDay. lia.
  - intros Hv. apply andb_true_iff in Hv. destruct Hv as [Hv Ht].
    pose proof (time_fields_bounds tod Ht) as Hb.
    unfold Date.new, DateString.parse.
    rewrite read_fields_date_time, in_bounds_date by assumption.
    destruct (time_fields tod) as [[[h mi] s] ms].
    destruct Hb as (Hh & Hmi & Hs & Hms).
    replace (mi <=? 59) with true by (symmetry; apply Z.leb_le; lia).
    replace (s <=? 59) with true by (symmetry; apply Z.leb_le; lia).
    replace (h <=? 23) with true by (symmetry; apply Z.leb_le; lia).
    cbn [andb orb obind DateString.time_value DateString.year DateString.month
         DateString.day DateString.time DateString.zone].
    apply valid_date_spec in Hv. destruct Hv as (Hy & Hm & Hd).
    pose proof (days_in_month_le_31 y m).
    pose proof (days_from_civil_bounds y m d Hy Hm ltac:(lia)).
    pose proof (MakeTime_bounds h mi s ms Hh Hmi Hs Hms).
    apply TimeClip_small. unfold MakeDate, msPerDay in *. lia.
Qed.

Lemma render_truthy (f : DueDate.t) :
  f <> DueDate.Empty -> truthy (DueDate.render f) = true.
Proof.
  destruct f; [congruence| |]; intros _; reflexivity.
Qed.

(** The text before the [T] of a valid due date is its calendar date. *)
Lemma split_head_render (f : DueDate.t) :
  split_head (chr "T") (DueDate.render f) = DueDate.calendar_date f.
Proof.
  destruct f as [|y m d|y m d tod]; cbn [DueDate.render DueDate.calendar_date].
  - reflexivity.
  - apply split_head_none, date_string_no_T.
  - apply split_head_app, date_string_no_T.
Qed.

(** What the seeding effect makes of a valid due date in UTC: the calendar
    date it names. *)
Lemma formatDueDate_utc (host : Host) (f : DueDate.t) :
  DueDate.valid f = true ->
  TodoFormModal.formatDueDate host (DueDate.render f) = Normal (DueDate.calendar_date f).
Proof.
  intros Hv. pose proof (Date_new_utc host f Hv) as Hnew.
  destruct f as [|y m d|y m d tod]; [reflexivity| |];
    unfold TodoFormModal.formatDueDate;
    rewrite render_truthy by discriminate.
  - rewrite Hnew.
    cbn [DueDate.valid] in Hv. apply valid_date_spec in Hv.
    destruct Hv as (Hy & Hm & Hd).
    destruct (toISOString_date y m d 0 Hy Hm Hd) as [rest ->]; [unfold msPerDay; lia|].
    cbn [bind]. f_equal. apply split_head_app, date_string_no_T.
  - cbn [DueDate.valid] in Hv. apply andb_true_iff in Hv. destruct Hv as [Hv Ht].
    pose proof (time_fields_bounds tod Ht) as Hb.
    destruct (time_fields tod) as [[[h mi] s] ms].
    destruct Hb as (Hh & Hmi & Hs & Hms).
    rewrite Hnew.
    apply valid_date_spec in Hv. destruct Hv as (Hy & Hm & Hd).
    destruct (toISOString_date y m d (MakeTime h mi s ms) Hy Hm Hd) as [rest ->];
      [now apply MakeTime_bounds|].
    cbn [bind]. f_equal. apply split_head_app, date_string_no_T.
Qed.

(** ** Opening with an entity *)

Lemma seed_copies (host : Host) (todo : Todo.t) (fd : TodoFormState.t) :
  TodoFormModal.seed host todo = Normal fd ->
  TodoFormState.title fd = Todo.title todo
  /\ TodoFormState.description fd = Todo.description todo
  /\ TodoFormState.priority fd = Todo.priority todo
  /\ TodoFormState.status fd = Todo.status todo.
Proof.
  unfold TodoFormModal.seed.
  destruct (TodoFormModal.formatDueDate host (Todo.dueDate todo)); cbn [bind];
    [|discriminate].
  intros [= <-]. repeat split.
Qed.

Lemma seed_utc (host : Host) (todo : Todo.t) (f : DueDate.t) :
  DueDate.valid f = true ->
  Todo.dueDate todo = DueDate.render f ->
  TodoFormModal.seed host todo
  = Normal {|
      TodoFormState.title := Todo.title todo;
      TodoFormState.description := Todo.description todo;
      TodoFormState.dueDate := DueDate.calendar_date f;
      TodoFormState.priority := Todo.priority todo;
      TodoFormState.status := Todo.status todo |}.
Proof.
  intros Hv Hd. unfold TodoFormModal.seed. rewrite Hd.
  rewrite (formatDueDate_utc host f Hv). reflexivity.
Qed.

(** The seed of [late_evening] on any host: the due date is the next day. *)
Lemma seed_late_evening (host : Host) :
  TodoFormModal.seed host late_evening
  = Normal {|
      TodoFormState.title := js "Call home";
      TodoFormState.description := js "";
      TodoFormState.dueDate := js "2024-03-06";
      TodoFormState.priority := low;
      TodoFormState.status := in_progress |}.
Proof. vm_compute. reflexivity. Qed.

(** C5, counterexample: 23:00 at UTC-05:00 on 5 March is 04:00 UTC on
    6 March, so the form is seeded with 2024-03-06, not with the written
    date 2024-03-05. *)
Lemma seed_shifts_offset_date :
  (exists fd, TodoFormModal.seed utc_host late_evening = Normal fd
              /\ TodoFormState.dueDate fd = js "2024-03-06"
              /\ written_date (Todo.dueDate late_evening) = js "2024-03-05")
  /\ ~ seeds_written_date late_evening.
Proof.
  split.
  - eexists. split; [apply seed_late_evening|]. split; reflexivity.
  - intros H. destruct (H utc_host) as (fd & Hs & Hd & _).
    rewrite seed_late_evening in Hs. injection Hs as <-.
    vm_compute in Hd. discriminate.
Qed.

(** C5, amended: an entity whose due date is empty, a calendar date
    YYYY-MM-DD, or such a date with a UTC time of day before 24:00 (THH:mm,
    THH:mm:ss or THH:mm:ss.sss, then Z) is seeded, on every host, with that
    calendar date, which is the text before the T, and opening a closed form
    with it puts that seed in the form.  For every entity, whatever its due
    date, a seed that is made has the entity's priority and status, and so
    has the form state after an opening that seeds it. *)
Theorem open_seeds_utc_dueDate (todo : Todo.t) :
  (forall f, DueDate.valid f = true -> Todo.dueDate todo = DueDate.render f ->
     seeds_written_date todo
     /\ written_date (Todo.dueDate todo) = DueDate.calendar_date f
     /\ (forall host c, isOpen (props c) = false ->
           exists c', step host (open (Some todo)) c = Ran c' [setTimeout_focusTitle]
                      /\ TodoFormModal.seed host todo = Normal (formData c')
                      /\ TodoFormState.dueDate (formData c') = DueDate.calendar_date f))
  /\ (forall host fd, TodoFormModal.seed host todo = Normal fd ->
        TodoFormState.priority fd = Todo.priority todo
        /\ TodoFormState.status fd = Todo.status todo)
  /\ (forall host c c' trace, isOpen (props c) = false ->
        step host (open (Some todo)) c = Ran c' trace ->
        TodoFormState.priority (formData c') = Todo.priority todo
        /\ TodoFormState.status (formData c') = Todo.status todo).
Proof.
  split; [|split].
  - intros f Hv Hd.
    assert (Hw : written_date (Todo.dueDate todo) = DueDate.calendar_date f).
    { unfold written_date. rewrite Hd. apply split_head_render. }
    split; [|split; [exact Hw|]].
    + intros host. eexists. split; [apply (seed_utc host todo f Hv Hd)|].
      cbn [TodoFormState.dueDate TodoFormState.priority TodoFormState.status].
      rewrite Hw. repeat split.
    + intros host c Hc. rewrite (step_open host (Some todo) c Hc).
      rewrite (seed_utc host todo f Hv Hd). eexists. repeat split.
  - intros host fd Hs. now apply seed_copies in Hs.
  - intros host c c' trace Hc. rewrite (step_open host (Some todo) c Hc).
    destruct (TodoFormModal.seed host todo) as [fd|e] eqn:Hs; [|discriminate].
    intros [= <- _]. cbn [formData]. now apply seed_copies in Hs.
Qed.

Lemma open_seeds_utc_dueDate_witness :
  (seeds_written_date t1
   /\ written_date (js "2024-03-05T10:00:00Z") = js "2024-03-05"
   /\ exists c', step utc_host (open (Some t1)) mounted = Ran c' [setTimeout_focusTitle]
                 /\ TodoFormModal.seed utc_host t1 = Normal (formData c')
                 /\ TodoFormState.dueDate (formData c') = js "2024-03-05")
  /\ (exists fd, TodoFormModal.seed utc_host late_evening = Normal fd
                 /\ TodoFormState.dueDate fd = js "2024-03-06"
                 /\ TodoFormState.priority fd = low
                 /\ TodoFormState.status fd = in_progress)
  /\ (exists c', step utc_host (open (Some late_evening)) mounted
                 = Ran c' [setTimeout_focusTitle]
                 /\ TodoFormState.priority (formData c') = low
                 /\ TodoFormState.status (formData c') = in_progress).
Proof.
  split; [|split].
  - destruct (proj1 (open_seeds_utc_dueDate t1)
                (DueDate.DateTimeUTC 2024 3 5 (DueDate.HMS 10 0 0)) eq_refl eq_refl)
      as (H1 & H2 & H3).
    split; [exact H1|]. split; [exact H2|]. exact (H3 utc_host mounted eq_refl).
  - eexists. split; [apply seed_late_evening|]. split; [reflexivity|].
    exact (proj1 (proj2 (open_seeds_utc_dueDate late_evening)) utc_host _
             (seed_late_evening utc_host)).
  - assert (Hstep : step utc_host (open (Some late_evening)) mounted
                    = Ran {| props := {| isOpen := true; editingTodo := Some late_evening |};
                             formData := {|
                               TodoFormState.title := js "Call home";
                               TodoFormState.description := js "";
                               TodoFormState.dueDate := js "2024-03-06";
                               TodoFormState.priority := low;
                               TodoFormState.status := in_progress |} |}
                          [setTimeout_focusTitle]).
    { rewrite step_open by reflexivity. now rewrite seed_late_evening. }
    eexists. split; [exact Hstep|].
    exact (proj2 (proj2 (open_seeds_utc_dueDate late_evening)) utc_host mounted _ _
             eq_refl Hstep).
Defined.

(** ** Opening with an entity and submitting at once *)

Lemma run_open_submit (host : Host) (todo : Todo.t) (fd : TodoFormState.t) (c : Controller) :
  isOpen (props c) = false ->
  TodoFormModal.seed host todo = Normal fd ->
  trim (TodoFormState.title fd) <> [] ->
  run host [open (Some todo); ui submit] c
  = Ran {| props := {| isOpen := false; editingTodo := Some todo |}; formData := fd |}
        [setTimeout_focusTitle; preventDefault;
         onSave (TodoFormModal.todoToSave (Some todo) fd); onClose].
Proof.
  intros Hc Hs Ht. cbn [run]. rewrite step_open, Hs by assumption.
  rewrite step_submit_valid by (reflexivity || assumption). reflexivity.
Qed.

(** C1, counterexample: an entity whose title is three spaces is seeded
    into the form, and the submit that follows is stopped by the validation:
    there is no output record.  (A due date with an offset, as in
    [late_evening], comes back as another calendar date.) *)
Lemma open_submit_blank_title_saves_nothing :
  (exists c', run utc_host [open (Some untitled); ui submit] mounted
              = Ran c' [setTimeout_focusTitle; preventDefault;
                        alert (js "Todo title cannot be empty."); focusTitle])
  /\ ~ open_submit_returns untitled
  /\ ~ open_submit_returns late_evening.
Proof.
  split; [|split].
  - eexists. vm_compute. reflexivity.
  - intros H. destruct (H utc_host mounted eq_refl) as (c' & trace & r & Hrun & Hsaved & _).
    vm_compute in Hrun. injection Hrun as _ <-. discriminate.
  - intros H. destruct (H utc_host mounted eq_refl)
      as (c' & trace & r & Hrun & Hsaved & _ & _ & Hdue & _).
    rewrite (run_open_submit utc_host late_evening _ mounted eq_refl
               (seed_late_evening utc_host)) in Hrun by discriminate.
    injection Hrun as _ <-. injection Hsaved as <-.
    vm_compute in Hdue. discriminate.
Qed.

(** C1, amended: for an entity whose title is not blank and whose due date
    is empty, a calendar date YYYY-MM-DD, or such a date with a UTC time of
    day before 24:00, opening a closed form with it and submitting at once
    saves one record: title, description, priority and status are the
    entity's, the due date is the entity's calendar date, completed says
    whether the status is completed, and the id is the entity's. *)
Theorem open_submit_returns_entity (todo : Todo.t) (f : DueDate.t) :
  trim (Todo.title todo) <> [] ->
  DueDate.valid f = true ->
  Todo.dueDate todo = DueDate.render f ->
  open_submit_returns todo
  /\ written_date (Todo.dueDate todo) = DueDate.calendar_date f.
Proof.
  intros Ht Hv Hd. split.
  - intros host c Hc.
    pose proof (seed_utc host todo f Hv Hd) as Hs.
    do 3 eexists. split; [apply (run_open_submit host todo _ c Hc Hs Ht)|].
    split; [reflexivity|].
    cbn [TodoFormModal.todoToSave PartialTodo.title PartialTodo.description
         PartialTodo.dueDate PartialTodo.priority PartialTodo.status
         PartialTodo.completed PartialTodo.id
         TodoFormState.title TodoFormState.description TodoFormState.dueDate
         TodoFormState.priority TodoFormState.status].
    repeat split. unfold written_date. rewrite Hd.
    f_equal. symmetry. apply split_head_render.
  - unfold written_date. rewrite Hd. apply split_head_render.
Qed.

Lemma open_submit_returns_entity_witness :
  open_submit_returns t1 /\ written_date (Todo.dueDate t1) = js "2024-03-05".
Proof.
  apply (open_submit_returns_entity t1 (DueDate.DateTimeUTC 2024 3 5 (DueDate.HMS 10 0 0))).
  - vm_compute. discriminate.
  - reflexivity.
  - reflexivity.
Defined.

(** ** The Date model on sample strings *)

Example toISOString_utc_time :
  Date.toISOString (Date.new utc_host (js "2024-03-05T10:00:00Z"))
  = Normal (js "2024-03-05T10:00:00.000Z").
Proof. vm_compute. reflexivity. Qed.

Example toISOString_offset :
  Date.toISOString (Date.new utc_host (js "2024-03-05T23:00:00-05:00"))
  = Normal (js "2024-03-06T04:00:00.000Z").
Proof. vm_compute. reflexivity. Qed.

Example toISOString_end_of_day :
  Date.toISOString (Date.new utc_host (js "1969-12-31T24:00Z"))
  = Normal (js "1970-01-01T00:00:00.000Z").
Proof. vm_compute. reflexivity. Qed.

Example toISOString_expanded_year :
  Date.toISOString (Date.new utc_host (js "-000001-03-05T23:00:00.123Z"))
  = Normal (js "-000001-03-05T23:00:00.123Z")
  /\ Date.toISOString (Date.new utc_host (js "+275760-09-13"))
     = Normal (js "+275760-09-13T00:00:00.000Z")
  /\ Date.toISOString (Date.new utc_host (js "+275760-09-13T00:00:00.001Z"))
     = Throw RangeError.
Proof. vm_compute. repeat split. Qed.

Example toISOString_leap_day :
  Date.toISOString (Date.new utc_host (js "2024-02-29"))
  = Normal (js "2024-02-29T00:00:00.000Z")
  /\ Date.toISOString (Date.new utc_host (js "1900-02-28T23:59:59.999Z"))
     = Normal (js "1900-02-28T23:59:59.999Z")
  /\ civil_from_days (days_from_civil 2000 2 29) = (2000, 2, 29)
  /\ days_from_civil 1970 1 1 = 0
  /\ civil_from_days (-1) = (1969, 12, 31).
Proof. vm_compute. repeat split. Qed.

(** A string the host does not recognise is an Invalid Date, and the
    seeding effect throws. *)
Example seed_unparsable_throws :
  TodoFormModal.formatDueDate utc_host (js "tomorrow") = Throw RangeError.
Proof. vm_compute. reflexivity. Qed.

(** A date-time without an offset is local time: east of Greenwich local
    midnight belongs to the previous day in UTC. *)
Example seed_local_midnight :
  TodoFormModal.formatDueDate east_host (js "2024-03-05T00:00:00") = Normal (js "2024-03-04")
  /\ TodoFormModal.formatDueDate utc_host (js "2024-03-05T00:00:00") = Normal (js "2024-03-05")
  /\ TodoFormModal.formatDueDate east_host (js "2024-03-05") = Normal (js "2024-03-05").
Proof. vm_compute. repeat split. Qed.

(** * Further properties of the component *)

(** ** What a submit accepts *)

Lemma forallb_false_has_ink (s : jsstring) :
  forallb is_white s = false <-> has_ink s.
Proof.
  unfold has_ink. induction s as [|c s IH]; simpl.
  - split; [discriminate|]. now intros (c & [] & _).
  - rewrite andb_false_iff, IH. split.
    + intros [Hc|(x & Hx & Hw)]; [exists c|exists x]; auto.
    + intros (x & [<-|Hx] & Hw); [now left|]. right. now exists x.
Qed.

Lemma trim_not_nil_iff (s : jsstring) : trim s <> [] <-> has_ink s.
Proof.
  rewrite <- forallb_false_has_ink, trim_nil_iff.
  destruct (forallb is_white s); split; congruence.
Qed.

(** X1: a submit saves exactly when the title holds a code unit that is not
    white space; then it saves one record, which holds the five fields of
    the form as they stand, the completed flag of the status, the id of the
    edited entity if there is one and no time stamps, and it closes once;
    otherwise it neither saves nor closes. *)
Theorem handleSubmit_saves_iff_ink (editingTodo : option Todo.t) (fd : TodoFormState.t) :
  (saved (TodoFormModal.handleSubmit editingTodo fd) <> []
   <-> has_ink (TodoFormState.title fd))
  /\ (has_ink (TodoFormState.title fd) ->
        saved (TodoFormModal.handleSubmit editingTodo fd)
        = [ {| PartialTodo.id := match editingTodo with
                                 | Some todo => Some (Todo.id todo)
                                 | None => None
                                 end;
               PartialTodo.title := Some (TodoFormState.title fd);
               PartialTodo.description := Some (TodoFormState.description fd);
               PartialTodo.completed :=
                 Some (match TodoFormState.status fd with
                       | completed => true
                       | _ => false
                       end);
               PartialTodo.dueDate := Some (TodoFormState.dueDate fd);
               PartialTodo.priority := Some (TodoFormState.priority fd);
               PartialTodo.status := Some (TodoFormState.status fd);
               PartialTodo.createdAt := None;
               PartialTodo.updatedAt := None |} ]
        /\ closes (TodoFormModal.handleSubmit editingTodo fd) = 1%nat)
  /\ (~ has_ink (TodoFormState.title fd) ->
        saved (TodoFormModal.handleSubmit editingTodo fd) = []
        /\ closes (TodoFormModal.handleSubmit editingTodo fd) = 0%nat).
Proof.
  destruct (list_eq_dec N.eq_dec (trim (TodoFormState.title fd)) []) as [Hb|Hv].
  - assert (Hno : ~ has_ink (TodoFormState.title fd))
      by (rewrite <- trim_not_nil_iff; tauto).
    rewrite (handleSubmit_blank _ _ Hb). simpl.
    split; [tauto|]. split; [tauto|auto].
  - assert (Hink : has_ink (TodoFormState.title fd)) by now apply trim_not_nil_iff.
    rewrite (handleSubmit_valid _ _ Hv). cbn [saved closes filter is_onClose List.length].
    split; [split; [trivial|discriminate]|]. split; [|tauto].
    intros _. split; [|reflexivity].
    unfold TodoFormModal.todoToSave.
    destruct (TodoFormState.status fd); reflexivity.
Qed.

Lemma handleSubmit_saves_iff_ink_witness :
  saved (TodoFormModal.handleSubmit None (formData padded_form))
  = [ {| PartialTodo.id := None;
         PartialTodo.title := Some (js "  x  ");
         PartialTodo.description := Some (js "");
         PartialTodo.completed := Some false;
         PartialTodo.dueDate := Some (js "");
         PartialTodo.priority := Some medium;
         PartialTodo.status := Some pending;
         PartialTodo.createdAt := None;
         PartialTodo.updatedAt := None |} ]
  /\ closes (TodoFormModal.handleSubmit None (formData padded_form)) = 1%nat.
Proof.
  apply (proj1 (proj2 (handleSubmit_saves_iff_ink None (formData padded_form)))).
  exists 120%N. split; [simpl; tauto|reflexivity].
Defined.

(** ** The Escape key *)

Lemma JSString_eqb_eq (a b : jsstring) : JSString.eqb a b = true <-> a = b.
Proof.
  revert b. induction a as [|x a IH]; intros [|y b]; simpl;
    try (split; [discriminate|congruence]); [tauto|].
  rewrite andb_true_iff, N.eqb_eq, IH. split; [intros [-> ->]|intros [= -> ->]]; auto.
Qed.

(** X2: while the form is open a keydown closes it exactly when the key is
    Escape, spelled so; any other key calls nothing and changes nothing. *)
Theorem keydown_closes_iff_escape (host : Host) (c : Controller) (key : jsstring) :
  isOpen (props c) = true ->
  (key = js "Escape" ->
     step host (ui (keydown key)) c
     = Ran {| props := {| isOpen := false; editingTodo := editingTodo (props c) |};
              formData := formData c |} [onClose])
  /\ (key <> js "Escape" -> step host (ui (keydown key)) c = Ran c []).
Proof.
  intros Ho. unfold step, rerender, collaborator. rewrite Ho.
  cbn [handle]. unfold TodoFormModal.handleKeyDown. split.
  - intros ->. cbn. rewrite Ho. reflexivity.
  - intros Hne. destruct (JSString.eqb key (js "Escape")) eqn:E.
    + apply JSString_eqb_eq in E. contradiction.
    + simpl. rewrite ?Ho. simpl. now rewrite Controller_eta.
Qed.

Lemma keydown_closes_iff_escape_witness :
  step utc_host (ui (keydown (js "Escape"))) padded_form
  = Ran {| props := {| isOpen := false; editingTodo := None |};
           formData := formData padded_form |} [onClose]
  /\ step utc_host (ui (keydown (js "escape"))) padded_form = Ran padded_form [].
Proof.
  split.
  - exact (proj1 (keydown_closes_iff_escape utc_host padded_form (js "Escape") eq_refl) eq_refl).
  - apply (proj2 (keydown_closes_iff_escape utc_host padded_form (js "escape") eq_refl)).
    discriminate.
Defined.

(** ** Edits compose *)

(** X3: of two edits of one field the later one stands, edits of different
    fields can be made in either order, and writing a field's own value back
    changes nothing. *)
Theorem handleChange_compose (fd : TodoFormState.t) (name name' : FieldName.t)
    (v1 v2 : FieldName.value name) (v' : FieldName.value name') :
  TodoFormModal.handleChange name v2 (TodoFormModal.handleChange name v1 fd)
  = TodoFormModal.handleChange name v2 fd
  /\ (name <> name' ->
        TodoFormModal.handleChange name v1 (TodoFormModal.handleChange name' v' fd)
        = TodoFormModal.handleChange name' v' (TodoFormModal.handleChange name v1 fd))
  /\ TodoFormModal.handleChange name (FieldName.get name fd) fd = fd.
Proof.
  split; [|split].
  - destruct name; reflexivity.
  - intros Hne. destruct name, name'; try reflexivity; contradiction.
  - destruct fd, name; reflexivity.
Qed.

Lemma handleChange_compose_witness :
  TodoFormModal.handleChange FieldName.title (js "b")
    (TodoFormModal.handleChange FieldName.status completed seeded_t1)
  = TodoFormModal.handleChange FieldName.status completed
      (TodoFormModal.handleChange FieldName.title (js "b") seeded_t1).
Proof.
  apply (proj1 (proj2 (handleChange_compose seeded_t1 FieldName.title FieldName.status
                         (js "b") (js "a") completed))).
  discriminate.
Defined.

(** ** What a step can do *)

(** An event of the rendered form: the handler runs, the parent reacts, and
    the effect that runs when the form closes does nothing. *)
Lemma step_ui_open (host : Host) (ev : UIEvent) (c : Controller) :
  isOpen (props c) = true ->
  step host (ui ev) c
  = Ran {| props := collaborator (snd (handle ev c)) (props c);
           formData := fst (handle ev c) |} (snd (handle ev c)).
Proof.
  intros Ho. unfold step. rewrite Ho.
  destruct (handle ev c) as [fd trace]. cbn [fst snd].
  unfold rerender, collaborator. cbn [props formData].
  destruct (existsb is_onClose trace); cbn [isOpen]; rewrite Ho; cbn [Bool.eqb].
  - unfold TodoFormModal.seedingEffect. cbn [isOpen]. now rewrite app_nil_r.
  - reflexivity.
Qed.

Lemma step_ui_closed (host : Host) (ev : UIEvent) (c : Controller) :
  isOpen (props c) = false -> step host (ui ev) c = Ran c [].
Proof. intros Hc. unfold step. now rewrite Hc. Qed.

Lemma seed_throws_iff (host : Host) (todo : Todo.t) (e : Exception) :
  TodoFormModal.seed host todo = Throw e
  <-> Todo.dueDate todo <> [] /\ Date.new host (Todo.dueDate todo) = None /\ e = RangeError.
Proof.
  unfold TodoFormModal.seed, TodoFormModal.formatDueDate.
  destruct (Todo.dueDate todo) as [|x s] eqn:Hd; cbn [truthy bind].
  - split; [discriminate|]. now intros [H _].
  - unfold Date.toISOString.
    destruct (Date.new host (x :: s)) as [tv|]; cbn [bind].
    + destruct (civil_from_days (tv / msPerDay)) as [[y m] d]. cbn [bind].
      split; [discriminate|]. intros (_ & H & _). discriminate.
    + destruct e. split.
      * intros _. repeat split. discriminate.
      * reflexivity.
Qed.

(** X4: opening a closed form with an entity throws exactly when the due
    date of the entity is not empty and is an Invalid Date on the host, and
    what it throws is a RangeError; otherwise the opening seeds the form.
    Opening a closed form for creation never throws, and neither does any
    handler of the form or any dismissal, on an open or on a closed form. *)
Theorem open_closed_throws_iff (host : Host) (c : Controller) :
  (forall ev, exists c' trace, step host (ui ev) c = Ran c' trace)
  /\ (isOpen (props c) = false ->
      (exists c', step host (open None) c = Ran c' [setTimeout_focusTitle])
      /\ forall todo,
           (forall e, step host (open (Some todo)) c = Threw e
                      <-> Todo.dueDate todo <> []
                          /\ Date.new host (Todo.dueDate todo) = None
                          /\ e = RangeError)
           /\ ((exists e, step host (open (Some todo)) c = Threw e)
               \/ exists c', step host (open (Some todo)) c = Ran c' [setTimeout_focusTitle]
                             /\ TodoFormModal.seed host todo = Normal (formData c'))).
Proof.
  split.
  - intros ev. destruct (isOpen (props c)) eqn:Hc.
    + rewrite step_ui_open by assumption. eauto.
    + rewrite step_ui_closed by assumption. eauto.
  - intros Hc. split.
    + rewrite (step_open host None c Hc). eauto.
    + intros todo. rewrite (step_open host (Some todo) c Hc). split.
      * intros e. rewrite <- seed_throws_iff.
        destruct (TodoFormModal.seed host todo) as [fd|e'].
        -- split; discriminate.
        -- destruct e, e'. split; reflexivity.
      * destruct (TodoFormModal.seed host todo) as [fd|e'].
        -- right. eexists. split; reflexivity.
        -- left. eauto.
Qed.

Lemma open_closed_throws_iff_witness :
  step utc_host (open (Some someday)) mounted = Threw RangeError
  /\ (exists c', step utc_host (open None) mounted = Ran c' [setTimeout_focusTitle])
  /\ (exists c' trace, step utc_host (ui submit) padded_form = Ran c' trace).
Proof.
  destruct (open_closed_throws_iff utc_host mounted) as [_ H].
  destruct (H eq_refl) as [Hnone Hsome].
  split; [|split].
  - apply (proj1 (Hsome someday)). repeat split. discriminate.
  - exact Hnone.
  - exact (proj1 (open_closed_throws_iff utc_host padded_form) submit).
Defined.

(** ** What every run keeps *)









(** ** The day a time value falls on *)

Lemma yoe_of_doe (doe : Z) :
  0 <= doe < 146097 ->
  let yoe := (doe - doe / 1460 + doe / 36524 - doe / 146096) / 365 in
  let doy := doe - (365 * yoe + yoe / 4 - yoe / 100) in
  0 <= yoe <= 399 /\ 0 <= doy <= 365
  /\ (doy = 365 -> yoe mod 4 = 3 /\ (yoe mod 100 <> 99 \/ yoe = 399)).
Proof. intros H yoe doy. subst doy yoe. Z.div_mod_to_equations; lia. Qed.

Lemma month_of_doy (doy : Z) :
  0 <= doy <= 365 ->
  let mp := (5 * doy + 2) / 153 in
  let d := doy - (153 * mp + 2) / 5 + 1 in
  0 <= mp <= 11 /\ 1 <= d <= 31
  /\ (mp = 1 \/ mp = 3 \/ mp = 6 \/ mp = 8 -> d <= 30)
  /\ (mp = 11 -> d <= 29) /\ (mp = 11 -> d = 29 -> doy = 365).
Proof. intros H mp d. subst d mp. Z.div_mod_to_equations; lia. Qed.

(** Every day number is a date of the calendar, and it is the day number of
    that date. *)
Lemma civil_from_days_spec (z : Z) :
  let '(y, m, d) := civil_from_days z in
  1 <= m <= 12 /\ 1 <= d <= days_in_month y m /\ days_from_civil y m d = z
  /\ (z + 719468) / 146097 * 400 <= y <= (z + 719468) / 146097 * 400 + 400.
Proof.
  unfold civil_from_days.
  set (z' := z + 719468).
  set (era := z' / 146097).
  set (doe := z' - era * 146097).
  assert (Hdoe : 0 <= doe < 146097) by (subst doe era; Z.div_mod_to_equations; lia).
  destruct (yoe_of_doe doe Hdoe) as (Hyoe & Hdoy & Hlast).
  set (yoe := (doe - doe / 1460 + doe / 36524 - doe / 146096) / 365) in *.
  set (doy := doe - (365 * yoe + yoe / 4 - yoe / 100)) in *.
  destruct (month_of_doy doy Hdoy) as (Hmp & Hd & H30 & H29 & Hfeb).
  set (mp := (5 * doy + 2) / 153) in *.
  set (d := doy - (153 * mp + 2) / 5 + 1) in *.
  set (m := if mp <? 10 then mp + 3 else mp - 9).
  assert (Hm : 1 <= m <= 12 /\ (m <= 2 <-> 10 <= mp)
               /\ mp = (if 2 <? m then m - 3 else m + 9)).
  { subst m. destruct (Z.ltb_spec mp 10).
    - destruct (Z.ltb_spec 2 (mp + 3)); lia.
    - destruct (Z.ltb_spec 2 (mp - 9)); lia. }
  destruct Hm as (Hm & Hjf & Hmp').
  set (y := if m <=? 2 then yoe + era * 400 + 1 else yoe + era * 400).
  assert (Hy' : (if m <=? 2 then y - 1 else y) = yoe + era * 400)
    by (subst y; destruct (m <=? 2); lia).
  split; [exact Hm|]. split; [|split].
  - unfold days_in_month.
    destruct (Z.eqb_spec m 2) as [E2|N2].
    + assert (mp = 11) by (destruct (Z.ltb_spec 2 m); lia).
      destruct (is_leap y) eqn:El; [lia|].
      assert (d <> 29); [|lia]. intros E29.
      specialize (Hfeb H E29). specialize (Hlast Hfeb).
      assert (Hl : is_leap y = true); [|congruence].
      apply is_leap_spec. subst y. destruct (Z.leb_spec m 2); [|lia].
      Z.div_mod_to_equations; lia.
    + destruct ((m =? 4) || (m =? 6) || (m =? 9) || (m =? 11)) eqn:E; [|lia].
      assert (d <= 30); [|lia].
      apply H30. rewrite !orb_true_iff, !Z.eqb_eq in E.
      destruct (Z.ltb_spec 2 m); lia.
  - unfold days_from_civil. rewrite Hy', <- Hmp'.
    replace ((yoe + era * 400) / 400) with era
      by (apply Z.div_unique with yoe; lia).
    replace (yoe + era * 400 - era * 400) with yoe by lia.
    subst d doy doe z'. lia.
  - subst y. fold era. destruct (m <=? 2); lia.
Qed.

Lemma civil_from_days_inj (z z' : Z) :
  civil_from_days z = civil_from_days z' -> z = z'.
Proof.
  intros E. pose proof (civil_from_days_spec z) as H.
  pose proof (civil_from_days_spec z') as H'. rewrite E in H.
  destruct (civil_from_days z') as [[y m] d]. lia.
Qed.

(** ** The date the seeding effect writes *)

Lemma toISOString_iso_date (tv : Z) :
  exists rest,
    Date.toISOString (Some tv) = Normal (iso_date (tv / msPerDay) ++ chr "T" :: rest).
Proof.
  unfold Date.toISOString, iso_date.
  destruct (civil_from_days (tv / msPerDay)) as [[y m] d].
  eexists. norm_app. reflexivity.
Qed.

Lemma pad_no_T (n : nat) (z : Z) : Forall (fun c => c <> chr "T") (pad n z).
Proof.
  eapply Forall_impl; [|apply pad_digits].
  intros c Hc E. simpl in Hc. subst c. vm_compute in Hc. destruct Hc as [_ Hc]. now apply Hc.
Qed.

Lemma iso_date_no_T (k : Z) : Forall (fun c => c <> chr "T") (iso_date k).
Proof.
  unfold iso_date. destruct (civil_from_days k) as [[y m] d].
  unfold Date.year_string.
  destruct ((0 <=? y) && (y <=? 9999)); [|destruct (0 <=? y)];
    repeat (apply Forall_app; split; try apply pad_no_T;
            try (constructor; [discriminate|]));
    apply pad_no_T.
Qed.

Lemma iso_date_truthy (k : Z) : truthy (iso_date k) = true.
Proof.
  unfold iso_date. destruct (civil_from_days k) as [[y m] d].
  unfold Date.year_string.
  destruct ((0 <=? y) && (y <=? 9999)); [|destruct (0 <=? y)]; reflexivity.
Qed.

Lemma read_year_year_string (y : Z) (r : jsstring) :
  -999999 <= y <= 999999 ->
  DateString.read_year (Date.year_string y ++ r) = Some (y, r).
Proof.
  intros Hy. unfold Date.year_string.
  destruct ((0 <=? y) && (y <=? 9999)) eqn:E.
  - apply andb_true_iff in E. rewrite !Z.leb_le in E. now apply read_year_pad.
  - unfold DateString.read_year. destruct (Z.leb_spec 0 y) as [Hp|Hn].
    + cbn [app DateString.starts_with tl]. change (N.eqb (chr "+") (chr "+")) with true.
      cbn iota. rewrite Z.abs_eq by assumption.
      apply read_digits_pad_small. simpl. lia.
    + cbn [app DateString.starts_with tl].
      change (N.eqb (chr "-") (chr "+")) with false.
      change (N.eqb (chr "-") (chr "-")) with true. cbn iota.
      rewrite Z.abs_neq by lia.
      rewrite read_digits_pad_small by (simpl; lia). cbn [obind].
      replace (- y =? 0) with false by (symmetry; apply Z.eqb_neq; lia).
      do 2 f_equal. lia.
Qed.

(** Read back, the written date is midnight UTC of its day. *)
Lemma Date_new_iso_date (host : Host) (k : Z) :
  -100000000 <= k <= 100000000 ->
  Date.new host (iso_date k) = Some (k * msPerDay).
Proof.
  intros Hk. pose proof (civil_from_days_spec k) as Hspec.
  unfold iso_date. destruct (civil_from_days k) as [[y m] d].
  destruct Hspec as (Hm & Hd & Hday & Hy).
  pose proof (days_in_month_le_31 y m).
  assert (Hy6 : -999999 <= y <= 999999) by (Z.div_mod_to_equations; lia).
  unfold Date.new, DateString.parse, DateString.read_fields.
  rewrite read_year_year_string by assumption. cbn [obind].
  rewrite <- (app_nil_r (pad 2 d)).
  rewrite read_month_day_pad by lia. cbn [obind].
  unfold DateString.in_bounds.
  cbn [DateString.year DateString.month DateString.day DateString.time DateString.zone].
  replace (1 <=? m) with true by (symmetry; apply Z.leb_le; lia).
  replace (m <=? 12) with true by (symmetry; apply Z.leb_le; lia).
  replace (1 <=? d) with true by (symmetry; apply Z.leb_le; lia).
  replace (d <=? days_in_month y m) with true by (symmetry; apply Z.leb_le; lia).
  cbn [andb DateString.time_value DateString.year DateString.month DateString.day
       DateString.time].
  rewrite Hday. unfold MakeDate. rewrite Z.add_0_r.
  apply TimeClip_small. unfold msPerDay. lia.
Qed.

Lemma formatDueDate_iso_date (host : Host) (k : Z) :
  -100000000 <= k <= 100000000 ->
  TodoFormModal.formatDueDate host (iso_date k) = Normal (iso_date k).
Proof.
  intros Hk. unfold TodoFormModal.formatDueDate.
  rewrite iso_date_truthy, Date_new_iso_date by assumption.
  destruct (toISOString_iso_date (k * msPerDay)) as [rest ->].
  rewrite Z.div_mul by discriminate. cbn [bind].
  f_equal. apply split_head_app, iso_date_no_T.
Qed.

Lemma Date_new_range (host : Host) (s : jsstring) (tv : Z) :
  Date.new host s = Some tv -> Z.abs tv <= 8640000000000000.
Proof.
  unfold Date.new, TimeClip.
  destruct (DateString.parse host s) as [tv'|]; cbn [obind]; [|discriminate].
  destruct (Z.leb_spec (Z.abs tv') 8640000000000000); [|discriminate].
  now intros [= <-].
Qed.

(** The two ways the seeding effect makes a due date. *)
Lemma formatDueDate_inv (host : Host) (s out : jsstring) :
  TodoFormModal.formatDueDate host s = Normal out ->
  (s = [] /\ out = [])
  \/ exists tv, s <> [] /\ Date.new host s = Some tv
                /\ out = iso_date (tv / msPerDay)
                /\ -100000000 <= tv / msPerDay <= 100000000.
Proof.
  unfold TodoFormModal.formatDueDate. destruct s as [|x s]; cbn [truthy].
  - intros [= <-]. now left.
  - destruct (Date.new host (x :: s)) as [tv|] eqn:Hnew; [|discriminate].
    destruct (toISOString_iso_date tv) as [rest ->]. cbn [bind].
    rewrite split_head_app by apply iso_date_no_T. intros [= <-].
    right. exists tv. repeat split; try discriminate.
    + apply Date_new_range in Hnew. unfold msPerDay. Z.div_mod_to_equations; lia.
    + apply Date_new_range in Hnew. unfold msPerDay. Z.div_mod_to_equations; lia.
Qed.

(** X7: formatting a due date is idempotent, on every host and for every
    string: the date the seeding effect has written once is written
    unchanged (and without an exception) when it is the entity's due date
    the next time. *)
Theorem formatDueDate_idempotent (host : Host) (s out : jsstring) :
  TodoFormModal.formatDueDate host s = Normal out ->
  TodoFormModal.formatDueDate host out = Normal out.
Proof.
  intros H. apply formatDueDate_inv in H.
  destruct H as [[_ ->]|(tv & _ & _ & -> & Hk)].
  - reflexivity.
  - now apply formatDueDate_iso_date.
Qed.

Lemma formatDueDate_idempotent_witness :
  TodoFormModal.formatDueDate utc_host (js "2024-03-06") = Normal (js "2024-03-06").
Proof.
  apply (formatDueDate_idempotent utc_host (js "2024-03-05T23:00:00-05:00")).
  vm_compute. reflexivity.
Defined.

Lemma length_pad (n : nat) (z : Z) : List.length (pad n z) = n.
Proof.
  induction n as [|n IH]; [reflexivity|].
  change (pad (S n) z) with (digit_char ((z / 10 ^ Z.of_nat n) mod 10) :: pad n z).
  cbn [List.length]. congruence.
Qed.

(** X8: whatever the host makes of a due date that is not empty, what the
    seeding effect puts in the form is a date of the calendar (a month from
    1 to 12 and a day of that month) written year-month-day with no time in
    it: the ten code units YYYY-MM-DD for a year from 0 to 9999, thirteen
    with a sign and six digits for any other year. *)
Theorem formatDueDate_writes_calendar_date (host : Host) (s out : jsstring) :
  TodoFormModal.formatDueDate host s = Normal out ->
  s <> [] ->
  ~ In (chr "T") out
  /\ exists y m d,
       1 <= m <= 12 /\ 1 <= d <= days_in_month y m /\ -999999 <= y <= 999999
       /\ out = Date.year_string y ++ chr "-" :: pad 2 m ++ chr "-" :: pad 2 d
       /\ List.length out = (if (0 <=? y) && (y <=? 9999) then 10%nat else 13%nat).
Proof.
  intros H Hs. apply formatDueDate_inv in H.
  destruct H as [[-> _]|(tv & _ & _ & -> & Hk)]; [contradiction|].
  split.
  - intros Hin. pose proof (iso_date_no_T (tv / msPerDay)) as Hno.
    rewrite Forall_forall in Hno. now apply (Hno _ Hin).
  - pose proof (civil_from_days_spec (tv / msPerDay)) as Hspec.
    unfold iso_date. destruct (civil_from_days (tv / msPerDay)) as [[y m] d].
    destruct Hspec as (Hm & Hd & _ & Hy).
    exists y, m, d. split; [exact Hm|]. split; [exact Hd|].
    split; [Z.div_mod_to_equations; lia|]. split; [reflexivity|].
    unfold Date.year_string.
    destruct ((0 <=? y) && (y <=? 9999)); [|destruct (0 <=? y)];
      cbn [List.length app]; rewrite ?length_app; cbn [List.length];
      rewrite ?length_app; cbn [List.length]; rewrite !length_pad; reflexivity.
Qed.

Lemma formatDueDate_writes_calendar_date_witness :
  ~ In (chr "T") (js "2024-03-06")
  /\ exists y m d,
       1 <= m <= 12 /\ 1 <= d <= days_in_month y m /\ -999999 <= y <= 999999
       /\ js "2024-03-06" = Date.year_string y ++ chr "-" :: pad 2 m ++ chr "-" :: pad 2 d
       /\ List.length (js "2024-03-06") = (if (0 <=? y) && (y <=? 9999) then 10%nat else 13%nat).
Proof.
  apply (formatDueDate_writes_calendar_date utc_host (js "2024-03-05T23:00:00-05:00")).
  - vm_compute. reflexivity.
  - discriminate.
Defined.

(** ** Saving and editing again *)

(** X9: what was saved is what the form shows when the saved entity is
    edited again: if the due date of the form is empty or a calendar date
    YYYY-MM-DD (what a date input holds), then opening with any entity that
    carries the saved record's title, description, due date, priority and
    status seeds the form state that was submitted. *)
Theorem save_then_edit_round_trip (host : Host) (c : Controller) (f : DueDate.t)
    (todo' : Todo.t) :
  isOpen (props c) = true ->
  has_ink (TodoFormState.title (formData c)) ->
  DueDate.valid f = true ->
  TodoFormState.dueDate (formData c) = DueDate.calendar_date f ->
  let r := TodoFormModal.todoToSave (editingTodo (props c)) (formData c) in
  PartialTodo.title r = Some (Todo.title todo') ->
  PartialTodo.description r = Some (Todo.description todo') ->
  PartialTodo.dueDate r = Some (Todo.dueDate todo') ->
  PartialTodo.priority r = Some (Todo.priority todo') ->
  PartialTodo.status r = Some (Todo.status todo') ->
  exists c1 c2,
    step host (ui submit) c = Ran c1 [preventDefault; onSave r; onClose]
    /\ step host (open (Some todo')) c1 = Ran c2 [setTimeout_focusTitle]
    /\ formData c2 = formData c.
Proof.
  intros Ho Hink Hv Hdue r Ht Hde Hdd Hp Hs. subst r.
  cbn [TodoFormModal.todoToSave PartialTodo.title PartialTodo.description
       PartialTodo.dueDate PartialTodo.priority PartialTodo.status] in *.
  injection Ht as Ht. injection Hde as Hde. injection Hdd as Hdd.
  injection Hp as Hp. injection Hs as Hs.
  assert (Hfmt : TodoFormModal.formatDueDate host (DueDate.calendar_date f)
                 = Normal (DueDate.calendar_date f)).
  { destruct f as [|y m d|y m d tod]; [reflexivity| |].
    - exact (formatDueDate_utc host (DueDate.DateOnly y m d) Hv).
    - cbn [DueDate.valid] in Hv. apply andb_true_iff in Hv.
      exact (formatDueDate_utc host (DueDate.DateOnly y m d) (proj1 Hv)). }
  do 2 eexists. split; [|split].
  - apply step_submit_valid; [assumption|]. now apply trim_not_nil_iff.
  - rewrite step_open by reflexivity. unfold TodoFormModal.seed.
    rewrite <- Hdd, Hdue, Hfmt. cbn [bind]. reflexivity.
  - cbn [formData]. rewrite <- Ht, <- Hde, <- Hp, <- Hs, <- Hdue.
    now destruct (formData c).
Qed.

Lemma save_then_edit_round_trip_witness :
  exists c1 c2,
    step utc_host (ui submit) edit_form
    = Ran c1 [preventDefault;
              onSave (TodoFormModal.todoToSave (Some t1) seeded_t1); onClose]
    /\ step utc_host (open (Some saved_t1)) c1 = Ran c2 [setTimeout_focusTitle]
    /\ formData c2 = seeded_t1.
Proof.
  apply (save_then_edit_round_trip utc_host edit_form (DueDate.DateOnly 2024 3 5) saved_t1);
    try reflexivity.
  exists 88%N. split; [simpl; tauto|reflexivity].
Defined.

(** ** A due date with an offset *)

Lemma digit_val_range (c : code_unit) (d : Z) : digit_val c = Some d -> 0 <= d <= 9.
Proof.
  unfold digit_val.
  destruct (Z.leb_spec 48 (Z.of_N c)), (Z.leb_spec (Z.of_N c) 57); cbn [andb];
    try discriminate.
  intros [= <-]. lia.
Qed.

Lemma read_digits_range (n : nat) (acc v : Z) (s r : jsstring) :
  read_digits n acc s = Some (v, r) ->
  acc * 10 ^ Z.of_nat n <= v < (acc + 1) * 10 ^ Z.of_nat n.
Proof.
  revert acc s. induction n as [|n IH]; intros acc s.
  - unfold read_digits. intros [= <- _]. simpl. lia.
  - unfold read_digits; fold read_digits.
    destruct s as [|c s]; [discriminate|].
    destruct (digit_val c) as [d|] eqn:Hd; [|discriminate].
    intros H. apply IH in H. apply digit_val_range in Hd.
    rewrite Nat2Z.inj_succ, Z.pow_succ_r by lia.
    assert (0 < 10 ^ Z.of_nat n) by (apply Z.pow_pos_nonneg; lia).
    nia.
Qed.

Lemma read_time_range (s r : jsstring) (h mi sec ms : Z) :
  DateString.read_time s = Some (h, mi, sec, ms, r) ->
  0 <= h /\ 0 <= mi /\ 0 <= sec /\ 0 <= ms <= 999.
Proof.
  unfold DateString.read_time.
  destruct (read_digits 2 0 s) as [[h0 r0]|] eqn:Hh; cbn [obind]; [|discriminate].
  destruct (DateString.expect ":" r0) as [r1|]; cbn [obind]; [|discriminate].
  destruct (read_digits 2 0 r1) as [[mi0 r2]|] eqn:Hmi; cbn [obind]; [|discriminate].
  apply read_digits_range in Hh, Hmi. simpl in Hh, Hmi.
  destruct (DateString.starts_with ":" r2).
  - destruct (read_digits 2 0 (tl r2)) as [[s0 r3]|] eqn:Hs; cbn [obind]; [|discriminate].
    apply read_digits_range in Hs. simpl in Hs.
    destruct (DateString.starts_with "." r3).
    + destruct (read_digits 3 0 (tl r3)) as [[ms0 r4]|] eqn:Hms; cbn [obind]; [|discriminate].
      apply read_digits_range in Hms. simpl in Hms.
      intros [= <- <- <- <- _]. lia.
    + intros [= <- <- <- <- _]. lia.
  - intros [= <- <- <- <- _]. lia.
Qed.

Lemma read_zone_range (s : jsstring) (z : DateString.Zone) :
  DateString.read_zone s = Some z ->
  match z with
  | DateString.ZoneOffset sign h mi => (sign = 1 \/ sign = -1) /\ 0 <= h /\ 0 <= mi
  | _ => True
  end.
Proof.
  unfold DateString.read_zone. destruct s as [|c r]; [now intros [= <-]|].
  destruct (N.eqb c (chr "Z")).
  - destruct r; [now intros [= <-]|discriminate].
  - destruct (N.eqb c (chr "+") || N.eqb c (chr "-")); [|discriminate].
    destruct (read_digits 2 0 r) as [[h r0]|] eqn:Hh; cbn [obind]; [|discriminate].
    destruct (DateString.expect ":" r0) as [r1|]; cbn [obind]; [|discriminate].
    destruct (read_digits 2 0 r1) as [[mi r2]|] eqn:Hmi; cbn [obind]; [|discriminate].
    apply read_digits_range in Hh, Hmi. simpl in Hh, Hmi.
    destruct r2; [|discriminate]. intros [= <-].
    split; [|lia].
    match goal with |- context [if ?b then _ else _] => destruct b end; auto.
Qed.

(** What the parser has read when it accepts a string. *)
Lemma read_fields_range (s : jsstring) (f : DateString.Fields) :
  DateString.read_fields s = Some f ->
  s <> []
  /\ match DateString.time f with
     | Some (h, mi, sec, ms) => 0 <= h /\ 0 <= mi /\ 0 <= sec /\ 0 <= ms <= 999
     | None => DateString.zone f = DateString.ZoneAbsent
     end
  /\ match DateString.zone f with
     | DateString.ZoneOffset sign h mi => (sign = 1 \/ sign = -1) /\ 0 <= h /\ 0 <= mi
     | _ => True
     end.
Proof.
  intros H. split.
  - intros ->. discriminate.
  - revert H. unfold DateString.read_fields.
    destruct (DateString.read_year s) as [[y r]|]; cbn [obind]; [|discriminate].
    destruct (DateString.read_month_day r) as [[[m d] r0]|]; cbn [obind]; [|discriminate].
    destruct r0 as [|c r1].
    + intros [= <-]. cbn. auto.
    + destruct (N.eqb c (chr "T")); [|discriminate].
      destruct (DateString.read_time r1) as [[[[[h mi] sec] ms] r2]|] eqn:Ht;
        cbn [obind]; [|discriminate].
      destruct (DateString.read_zone r2) as [z|] eqn:Hz; cbn [obind]; [|discriminate].
      intros [= <-]. cbn [DateString.time DateString.zone].
      split; [exact (read_time_range _ _ _ _ _ _ Ht)|exact (read_zone_range _ _ Hz)].
Qed.

(** X10: for a due date in the Date Time String Format that is a date alone
    or carries Z or an offset, the seeded date does not depend on the host
    and is the named day, the day before it or the day after it; it is the
    named day itself for a date alone. *)
Theorem seeded_date_within_a_day (host : Host) (s out : jsstring) (f : DateString.Fields) :
  DateString.read_fields s = Some f ->
  DateString.in_bounds f = true ->
  DateString.time f = None \/ DateString.zone f <> DateString.ZoneAbsent ->
  TodoFormModal.formatDueDate host s = Normal out ->
  let named := days_from_civil (DateString.year f) (DateString.month f) (DateString.day f) in
  civil_from_days named = (DateString.year f, DateString.month f, DateString.day f)
  /\ (exists k, out = iso_date k /\ named - 1 <= k <= named + 1
                /\ (DateString.time f = None -> k = named))
  /\ (forall host', TodoFormModal.formatDueDate host' s = Normal out).
Proof.
  intros Hread Hb Hz Hfmt named.
  destruct (read_fields_range s f Hread) as (Hs & Htime & Hzone).
  assert (Hnew : forall h, Date.new h s = TimeClip (DateString.time_value host f)).
  { intros h. unfold Date.new, DateString.parse. rewrite Hread, Hb. cbn [obind].
    f_equal. unfold DateString.time_value.
    destruct (DateString.time f) as [[[[hh mi] sec] ms]|]; [|reflexivity].
    destruct (DateString.zone f); try reflexivity.
    destruct Hz as [Hz|Hz]; [discriminate|contradiction]. }
  unfold DateString.in_bounds in Hb. rewrite !andb_true_iff, !Z.leb_le in Hb.
  destruct Hb as [[[[[Hm1 Hm2] Hd1] Hd2] Ht] Hzb].
  split; [apply civil_from_days_from_civil; lia|]. split.
  - apply formatDueDate_inv in Hfmt.
    destruct Hfmt as [[-> _]|(tv & _ & Htv & -> & _)]; [contradiction|].
    rewrite Hnew in Htv. unfold TimeClip in Htv.
    destruct (Z.abs (DateString.time_value host f) <=? 8640000000000000); [|discriminate].
    injection Htv as <-. eexists. split; [reflexivity|].
    unfold DateString.time_value. fold named.
    destruct (DateString.time f) as [[[[hh mi] sec] ms]|].
    + split; [|discriminate].
      rewrite !andb_true_iff, orb_true_iff, !andb_true_iff, !Z.leb_le, !Z.eqb_eq in Ht.
      assert (Htod : 0 <= MakeTime hh mi sec ms <= msPerDay)
        by (unfold MakeTime, msPerDay, msPerHour, msPerMinute, msPerSecond; lia).
      destruct (DateString.zone f) as [| |sign zh zmi].
      * destruct Hz as [Hz|Hz]; [discriminate|contradiction].
      * unfold MakeDate, msPerDay in *. Z.div_mod_to_equations; lia.
      * rewrite andb_true_iff, !Z.leb_le in Hzb.
        assert (Hoff : 0 <= zh * msPerHour + zmi * msPerMinute < msPerDay)
          by (unfold msPerDay, msPerHour, msPerMinute; lia).
        destruct Hzone as ([->| ->] & _);
          unfold MakeDate, msPerDay in *; Z.div_mod_to_equations; lia.
    + assert (E : MakeDate named 0 / msPerDay = named)
        by (unfold MakeDate; rewrite Z.add_0_r; apply Z.div_mul; discriminate).
      rewrite E. split; [lia|auto].
  - intros host'. unfold TodoFormModal.formatDueDate in *.
    now rewrite Hnew in *.
Qed.

Lemma seeded_date_within_a_day_witness :
  civil_from_days (days_from_civil 2024 3 5) = (2024, 3, 5)
  /\ (exists k, js "2024-03-06" = iso_date k
                /\ days_from_civil 2024 3 5 - 1 <= k <= days_from_civil 2024 3 5 + 1)
  /\ TodoFormModal.formatDueDate east_host (js "2024-03-05T23:00:00-05:00")
     = Normal (js "2024-03-06").
Proof.
  pose (f := {| DateString.year := 2024; DateString.month := 3; DateString.day := 5;
                DateString.time := Some (23, 0, 0, 0);
                DateString.zone := DateString.ZoneOffset (-1) 5 0 |}).
  assert (Hread : DateString.read_fields (js "2024-03-05T23:00:00-05:00") = Some f)
    by (vm_compute; reflexivity).
  assert (Hb : DateString.in_bounds f = true) by (vm_compute; reflexivity).
  assert (Hz : DateString.time f = None \/ DateString.zone f <> DateString.ZoneAbsent)
    by (right; discriminate).
  assert (Hfmt : TodoFormModal.formatDueDate utc_host (js "2024-03-05T23:00:00-05:00")
                 = Normal (js "2024-03-06")) by (vm_compute; reflexivity).
  destruct (seeded_date_within_a_day utc_host _ _ f Hread Hb Hz Hfmt)
    as (H1 & (k & Hk & Hb' & _) & H3).
  split; [exact H1|]. split; [exists k; split; assumption|]. exact (H3 east_host).
Defined.

(** ** The keydown listener *)

Module KeydownFacts.
Import KeydownEffect.

Lemma Listener_eqb_refl (l : Listener) : Listener_eqb l l = true.
Proof. unfold Listener_eqb. now rewrite !Nat.eqb_refl. Qed.

Lemma same_deps_eq (a b : bool * nat) : same_deps a b = true -> a = b.
Proof.
  destruct a as [o f], b as [o' f']. unfold same_deps. cbn [fst snd].
  rewrite andb_true_iff, Nat.eqb_eq. intros [Ho ->].
  apply eqb_prop in Ho. now subst.
Qed.

Lemma render_keeps (p : bool * nat) (st : Instance * list Listener) :
  attached_as_rendered st ->
  attached_as_rendered (render p st) /\ deps (fst (render p st)) = Some p.
Proof.
  destruct st as [inst doc]. unfold attached_as_rendered, render. cbn [fst snd].
  destruct (deps inst) as [d|] eqn:Hd.
  - intros (l & Hc & Hl & Hdoc).
    destruct (same_deps d p) eqn:Hsame.
    + apply same_deps_eq in Hsame. subst d. cbn [fst snd]. rewrite Hd.
      split; [|reflexivity]. now exists l.
    + assert (Hclean : run_cleanup inst doc = []).
      { unfold run_cleanup. rewrite Hc, Hdoc.
        destruct (fst d); [|reflexivity].
        cbn [removeEventListener filter]. now rewrite Listener_eqb_refl. }
      unfold effect. rewrite Hclean. cbn [fst snd deps cleanup].
      split; [|reflexivity]. eexists. split; [reflexivity|]. split; [reflexivity|].
      destruct (fst p); reflexivity.
  - intros (Hc & Hdoc).
    unfold effect, run_cleanup. rewrite Hc, Hdoc. cbn [fst snd deps cleanup].
    split; [|reflexivity]. eexists. split; [reflexivity|]. split; [reflexivity|].
    destruct (fst p); reflexivity.
Qed.

Lemma renders_from_keeps (ps : list (bool * nat)) (st : Instance * list Listener) :
  attached_as_rendered st ->
  attached_as_rendered (fold_left (fun st p => render p st) ps st).
Proof.
  revert st. induction ps as [|p ps IH]; intros st Hst; cbn [fold_left].
  - exact Hst.
  - apply IH. now apply render_keeps.
Qed.

End KeydownFacts.

(** X11: however often the component is rendered, and with whatever
    sequence of [isOpen] and [onClose] props, after a render the document
    holds one keydown listener of the form when it is open and none when it
    is closed: an Escape key calls the [onClose] of that last render once
    when the form is open and nothing when it is closed, any other key
    calls nothing, and unmounting leaves no listener behind. *)
Theorem keydown_listener_lifecycle (ps : list (bool * nat)) (isOpen' : bool)
    (onClose' : nat) (key : jsstring) :
  let st := KeydownEffect.renders (ps ++ [(isOpen', onClose')]) in
  List.length (snd st) = (if isOpen' then 1 else 0)%nat
  /\ KeydownEffect.dispatch_keydown (js "Escape") (snd st)
     = (if isOpen' then [onClose'] else [])
  /\ (key <> js "Escape" -> KeydownEffect.dispatch_keydown key (snd st) = [])
  /\ KeydownEffect.unmount st = [].
Proof.
  intros st. subst st. unfold KeydownEffect.renders. rewrite fold_left_app.
  cbn [fold_left].
  set (st0 := fold_left _ ps _).
  assert (H0 : KeydownEffect.attached_as_rendered st0).
  { apply KeydownFacts.renders_from_keeps. split; reflexivity. }
  destruct (KeydownFacts.render_keeps (isOpen', onClose') st0 H0) as [H Hdeps].
  unfold KeydownEffect.attached_as_rendered in H. rewrite Hdeps in H.
  destruct H as (l & Hc & Hl & Hdoc). cbn [fst snd] in Hl, Hdoc.
  unfold KeydownEffect.unmount, KeydownEffect.run_cleanup. rewrite Hc, Hdoc.
  destruct isOpen'.
  - cbn [List.length KeydownEffect.dispatch_keydown flat_map app
         KeydownEffect.removeEventListener filter].
    rewrite KeydownFacts.Listener_eqb_refl, Hl.
    repeat split.
    intros Hne. destruct (JSString.eqb key (js "Escape")) eqn:E; [|reflexivity].
    apply JSString_eqb_eq in E. contradiction.
  - repeat split.
Qed.

Lemma keydown_listener_lifecycle_witness :
  KeydownEffect.dispatch_keydown (js "Enter")
    (snd (KeydownEffect.renders ([(false, 1%nat); (true, 1%nat); (true, 2%nat)]
                                  ++ [(true, 3%nat)]))) = [].
Proof.
  apply (keydown_listener_lifecycle [(false, 1%nat); (true, 1%nat); (true, 2%nat)]
           true 3%nat (js "Enter")).
  discriminate.
Defined.

(** ** What the form shows *)

(** X12: the form is controlled by its state.  A closed form renders
    nothing.  An open form gives each of its five controls, as its value
    prop, the field of the form state with the control's name; after a
    change event of a control that control is given the value of the event
    and the heading stays; a submit with a title that is not blank saves a
    record whose five fields are those value props, the heading reads Edit
    Todo and the button Save Changes exactly when that record carries an
    id, and after it the form renders nothing. *)
Theorem view_agrees_with_saved_record (host : Host) (c : Controller) :
  (isOpen (props c) = false -> render (props c) (formData c) = None)
  /\ (isOpen (props c) = true ->
      exists v,
        render (props c) (formData c) = Some v
        /\ (forall name, value_prop name v = FieldName.get name (formData c))
        /\ (forall name value,
              exists c1 v1,
                step host (ui (change name value)) c = Ran c1 []
                /\ render (props c1) (formData c1) = Some v1
                /\ value_prop name v1 = value
                /\ heading v1 = heading v /\ submit_label v1 = submit_label v)
        /\ (has_ink (TodoFormState.title (formData c)) ->
              exists c' r,
                step host (ui submit) c = Ran c' [preventDefault; onSave r; onClose]
                /\ PartialTodo.title r = Some (title_value v)
                /\ PartialTodo.description r = Some (description_value v)
                /\ PartialTodo.dueDate r = Some (dueDate_value v)
                /\ PartialTodo.priority r = Some (priority_value v)
                /\ PartialTodo.status r = Some (status_value v)
                /\ (heading v = js "Edit Todo" <-> PartialTodo.id r <> None)
                /\ (submit_label v = js "Save Changes" <-> PartialTodo.id r <> None)
                /\ render (props c') (formData c') = None)).
Proof.
  split.
  - intros Hc. unfold render. now rewrite Hc.
  - intros Ho. unfold render at 1. rewrite Ho. cbn [negb].
    eexists. split; [reflexivity|]. split; [|split].
    + intros name. destruct name; reflexivity.
    + intros name value. rewrite step_ui_open by assumption.
      cbn [handle fst snd]. unfold collaborator. cbn [existsb].
      do 2 eexists. split; [reflexivity|].
      unfold render. cbn [props formData]. rewrite Ho. cbn [negb].
      split; [reflexivity|]. cbn [heading submit_label].
      split; [destruct name; reflexivity|split; reflexivity].
    + intros Hink. do 2 eexists. split.
      * apply step_submit_valid; [assumption|]. now apply trim_not_nil_iff.
      * cbn [TodoFormModal.todoToSave PartialTodo.title PartialTodo.description
             PartialTodo.dueDate PartialTodo.priority PartialTodo.status PartialTodo.id
             heading submit_label title_value description_value dueDate_value
             priority_value status_value].
        repeat (split; [reflexivity|]).
        split; [|split; [|reflexivity]];
          destruct (editingTodo (props c)); split;
          try discriminate; try reflexivity; intros H; now contradiction H.
Qed.

Lemma view_agrees_with_saved_record_witness :
  exists v,
    render (props edit_form) (formData edit_form) = Some v
    /\ value_prop FieldName.dueDate v = js "2024-03-05"
    /\ (exists c1 v1,
          step utc_host (ui (change FieldName.title (js "Y"))) edit_form = Ran c1 []
          /\ render (props c1) (formData c1) = Some v1
          /\ value_prop FieldName.title v1 = js "Y"
          /\ heading v1 = heading v /\ submit_label v1 = submit_label v)
    /\ (exists c' r,
          step utc_host (ui submit) edit_form = Ran c' [preventDefault; onSave r; onClose]
          /\ PartialTodo.title r = Some (title_value v)
          /\ PartialTodo.description r = Some (description_value v)
          /\ PartialTodo.dueDate r = Some (dueDate_value v)
          /\ PartialTodo.priority r = Some (priority_value v)
          /\ PartialTodo.status r = Some (status_value v)
          /\ (heading v = js "Edit Todo" <-> PartialTodo.id r <> None)
          /\ (submit_label v = js "Save Changes" <-> PartialTodo.id r <> None)
          /\ render (props c') (formData c') = None).
Proof.
  destruct (proj2 (view_agrees_with_saved_record utc_host edit_form) eq_refl)
    as (v & Hv & Hget & Hchange & Hsubmit).
  exists v. split; [exact Hv|]. split; [exact (Hget FieldName.dueDate)|]. split.
  - exact (Hchange FieldName.title (js "Y")).
  - apply Hsubmit. exists 88%N. split; [simpl; tauto|reflexivity].
Defined.

(** ** The last edit of a field is what the form holds *)

Lemma get_handleChange (name : FieldName.t) (e : {n : FieldName.t & FieldName.value n})
    (fd : TodoFormState.t) :
  FieldName.get name (TodoFormModal.handleChange (projT1 e) (projT2 e) fd)
  = match edit_value name e with
    | Some v => v
    | None => FieldName.get name fd
    end.
Proof. destruct e as [n v]. destruct name, n; reflexivity. Qed.

Lemma get_apply_edits (name : FieldName.t)
    (edits : list {n : FieldName.t & FieldName.value n}) (fd : TodoFormState.t) :
  FieldName.get name (apply_edits edits fd)
  = match last_edit name edits with
    | Some v => v
    | None => FieldName.get name fd
    end.
Proof.
  revert fd. induction edits as [|e edits IH]; intros fd; [reflexivity|].
  unfold apply_edits in *. cbn [fold_left last_edit]. rewrite IH.
  destruct (last_edit name edits); [reflexivity|]. apply get_handleChange.
Qed.

Lemma run_edits_exact (host : Host)
    (edits : list {n : FieldName.t & FieldName.value n}) (c : Controller) :
  isOpen (props c) = true ->
  run host (map setField edits) c
  = Ran {| props := props c; formData := apply_edits edits (formData c) |} [].
Proof.
  revert c. induction edits as [|[name value] edits IH]; intros c Ho.
  - cbn. now rewrite Controller_eta.
  - cbn [map run]. unfold setField at 1. cbn [projT1 projT2].
    rewrite step_ui_open by assumption.
    cbn [handle fst snd]. unfold collaborator. cbn [existsb].
    rewrite IH by exact Ho. reflexivity.
Qed.

(** X13: after any list of edits on an open form, each field holds the
    value of the last edit of that field, or what it held before when the
    list has no edit of it; the edits call nothing and leave the form open;
    and a submit that follows, when the title so held is not blank, saves
    one record with exactly those five values, the completed flag of the
    status so held and the id of the edited entity if there is one, and
    closes the form. *)
Theorem edits_then_submit_saves_last_values (host : Host) (c : Controller)
    (edits : list {n : FieldName.t & FieldName.value n}) :
  isOpen (props c) = true ->
  let fd := apply_edits edits (formData c) in
  let held := fun name : FieldName.t =>
                match last_edit name edits with
                | Some v => v
                | None => FieldName.get name (formData c)
                end in
  (forall name, FieldName.get name fd = held name)
  /\ run host (map setField edits) c = Ran {| props := props c; formData := fd |} []
  /\ (has_ink (held FieldName.title) ->
        exists c',
          run host (map setField edits ++ [ui submit]) c
          = Ran c' [preventDefault;
                    onSave {|
                      PartialTodo.id := match editingTodo (props c) with
                                        | Some todo => Some (Todo.id todo)
                                        | None => None
                                        end;
                      PartialTodo.title := Some (held FieldName.title);
                      PartialTodo.description := Some (held FieldName.description);
                      PartialTodo.completed :=
                        Some (match held FieldName.status with
                              | completed => true
                              | _ => false
                              end);
                      PartialTodo.dueDate := Some (held FieldName.dueDate);
                      PartialTodo.priority := Some (held FieldName.priority);
                      PartialTodo.status := Some (held FieldName.status);
                      PartialTodo.createdAt := None;
                      PartialTodo.updatedAt := None |};
                    onClose]
          /\ isOpen (props c') = false
          /\ formData c' = fd).
Proof.
  intros Ho fd held. split; [|split].
  - intros name. apply get_apply_edits.
  - now apply run_edits_exact.
  - intros Hink.
    pose proof (get_apply_edits FieldName.title edits (formData c)) as Ht.
    pose proof (get_apply_edits FieldName.description edits (formData c)) as Hde.
    pose proof (get_apply_edits FieldName.dueDate edits (formData c)) as Hdd.
    pose proof (get_apply_edits FieldName.priority edits (formData c)) as Hp.
    pose proof (get_apply_edits FieldName.status edits (formData c)) as Hs.
    fold fd in Ht, Hde, Hdd, Hp, Hs.
    change (FieldName.get FieldName.title fd = held FieldName.title) in Ht.
    change (FieldName.get FieldName.description fd = held FieldName.description) in Hde.
    change (FieldName.get FieldName.dueDate fd = held FieldName.dueDate) in Hdd.
    change (FieldName.get FieldName.priority fd = held FieldName.priority) in Hp.
    change (FieldName.get FieldName.status fd = held FieldName.status) in Hs.
    cbn [FieldName.get] in Ht, Hde, Hdd, Hp, Hs.
    rewrite run_app, run_edits_exact by assumption. fold fd.
    cbn [run]. rewrite step_submit_valid;
      [|exact Ho|cbn [formData]; rewrite Ht; now apply trim_not_nil_iff].
    cbn [props formData app]. unfold TodoFormModal.todoToSave.
    rewrite Ht, Hde, Hdd, Hp, Hs.
    replace (Status_eqb (held FieldName.status) completed)
      with (match held FieldName.status with completed => true | _ => false end)
      by (destruct (held FieldName.status); reflexivity).
    eexists. split; [reflexivity|]. split; reflexivity.
Qed.

Lemma edits_then_submit_saves_last_values_witness :
  FieldName.get FieldName.title
    (apply_edits [existT _ FieldName.title (js "a");
                  existT _ FieldName.status completed;
                  existT _ FieldName.title (js "b")] seeded_t1) = js "b"
  /\ exists c',
       run utc_host
         (map setField [existT _ FieldName.title (js "a");
                        existT _ FieldName.status completed;
                        existT _ FieldName.title (js "b")] ++ [ui submit]) edit_form
       = Ran c' [preventDefault;
                 onSave {|
                   PartialTodo.id := Some (js "t1");
                   PartialTodo.title := Some (js "b");
                   PartialTodo.description := Some (js "");
                   PartialTodo.completed := Some true;
                   PartialTodo.dueDate := Some (js "2024-03-05");
                   PartialTodo.priority := Some high;
                   PartialTodo.status := Some completed;
                   PartialTodo.createdAt := None;
                   PartialTodo.updatedAt := None |};
                 onClose]
       /\ isOpen (props c') = false
       /\ formData c'
          = apply_edits [existT _ FieldName.title (js "a");
                         existT _ FieldName.status completed;
                         existT _ FieldName.title (js "b")] seeded_t1.
Proof.
  destruct (edits_then_submit_saves_last_values utc_host edit_form
              [existT _ FieldName.title (js "a");
               existT _ FieldName.status completed;
               existT _ FieldName.title (js "b")] eq_refl) as (H1 & _ & H3).
  split.
  - exact (H1 FieldName.title).
  - apply H3. exists 98%N. split; [simpl; tauto|reflexivity].
Defined.
